(** * Zowe Explorer: the action handlers of the Jobs tree

    A shallow embedding of [packages/zowe-explorer/src/job/actions.ts].

    Every handler of that module is a short sequence of calls into
    collaborators the module does not define: the VS Code window API, the
    profile singleton, the JES API facade, the command-issuing facility, the
    tree provider and the error reporter.  The embedding keeps the handlers
    as they are written and makes the collaborators a record of functions
    over an explicit store ([Env]); a handler evaluates to the final store,
    the chronological list of collaborator calls it made, and the way it
    completed. *)

From Stdlib Require Import ZArith Ascii String DecimalString DecimalPos DecimalZ.
From stdpp Require Import base tactics option list strings functions.

(** ** JavaScript values the handlers compute with *)

Module JS.

(** An [Error] object; the handlers read only [error.message]. *)
Record JsError := { message : string }.

(** The error raised when a property is read from, or written to,
    [undefined]. *)
Definition TypeError : JsError :=
  {| message := "Cannot read properties of undefined" |}.

(** Completion of a statement list, after the completion records of
    ECMAScript: it runs to its end with a value, leaves the enclosing
    function through [return;], or throws. *)
Inductive completion (A : Type) : Type :=
| Normal (a : A)
| Return
| Throw (e : JsError).
Arguments Normal {A} a.
Arguments Return {A}.
Arguments Throw {A} e.

(** What a call into foreign code does at the call site. *)
Inductive outcome (X : Type) : Type :=
| Returns (x : X)
| Throws (e : JsError).
Arguments Returns {X} x.
Arguments Throws {X} e.

(** The settled state of the promise an asynchronous call hands back. *)
Inductive promise (X : Type) : Type :=
| Resolved (x : X)
| Rejected (e : JsError).
Arguments Resolved {X} x.
Arguments Rejected {X} e.

(** White space removed by [String.prototype.trim], restricted to the
    code units below 128. *)
Definition is_white_space (c : ascii) : bool :=
  match c with
  | "009" | "010" | "011" | "012" | "013" | " " => true
  | _ => false
  end%char.

Fixpoint trimStart (s : string) : string :=
  match s with
  | String c r => if is_white_space c then trimStart r else s
  | EmptyString => EmptyString
  end.

Fixpoint trimEnd (s : string) : string :=
  match s with
  | String c r =>
      match trimEnd r with
      | EmptyString => if is_white_space c then EmptyString else String c EmptyString
      | r' => String c r'
      end
  | EmptyString => EmptyString
  end.

Definition trim (s : string) : string := trimEnd (trimStart s).

(** [Array.prototype.join] with the given separator. *)
Fixpoint join (sep : string) (l : list string) : string :=
  match l with
  | [] => ""
  | [x] => x
  | x :: r => x +:+ sep +:+ join sep r
  end.

(** An array of strings coerced to a string by [+]: [toString], which is
    [join(",")]. *)
Definition array_toString (l : list string) : string := join "," l.

(** [Array.prototype.unshift] and [Array.prototype.pop], as the updates
    they make to the array. *)
Definition unshift {A} (x : A) (l : list A) : list A := x :: l.
Definition pop {A} (l : list A) : list A := removelast l.

(** [Number.prototype.toString] on a safe integer (an integral number of
    magnitude at most 2^53 - 1, as a time stamp in milliseconds is): the
    decimal numeral.  Beyond that range JavaScript numbers are no longer all
    distinct integers and, from 1e21 on, print with an exponent; the handlers
    are not modelled there. *)
Definition number_toString (n : Z) : string :=
  NilZero.string_of_int (Z.to_int n).

End JS.
Export JS.

(** ** Data model *)

(** Tree nodes are objects: they are held by reference and live in the
    store. *)
Definition NodeId := nat.

(** Objects of the collaborators that the handlers pass on without ever
    reading a property of them are opaque references. *)
Definition IProfileLoaded := nat.
Definition Session := nat.
Definition JesApi := nat.
Definition IJobFile := nat.
Definition TextDocument := nat.

(** [zowe.IJob], with the two properties the handlers read. *)
Record IJob := { jobid : string; jobname : string }.

(** [IZoweJobTreeNode]: [job] is absent on a node that is not a job;
    [owner], [prefix] and [searchId] are plain mutable properties. *)
Record IZoweJobTreeNode := {
  label : string;
  job : option IJob;
  owner : option string;
  prefix : option string;
  searchId : option string;
}.

(** Modelled from the spec: [ValidProfileEnum] is declared in
    [@zowe/zowe-explorer-api]; the spec lists its values as VALID,
    UNVERIFIED and INVALID. *)
Inductive ValidProfileEnum := VALID | UNVERIFIED | INVALID.

Record Uri := { fsPath : string }.

Record OpenDialogOptions := {
  openLabel : string;
  canSelectFolders : bool;
  canSelectFiles : bool;
  canSelectMany : bool;
}.

Record InputBoxOptions := { prompt : string }.

(** The argument of [downloadSpoolContent]. *)
Record IDownloadAllSpoolContentParms := {
  parms_jobid : string;
  parms_jobname : string;
  outDir : string;
}.

(** The value [issueSimple] resolves to. *)
Record IConsoleResponse := { commandResponse : string }.

(** The object [getTreeView()] returns. *)
Record TreeView := { selection : list NodeId }.

(** The two things [vscode.window.showTextDocument] is given here. *)
Inductive DocumentRef :=
| OfUri (uri : Uri)
| OfDocument (doc : TextDocument).

(** ** Collaborator calls and traces *)

Inductive Call :=
| ShowOpenDialog (options : OpenDialogOptions)
| ShowInputBox (options : InputBoxOptions)
| ShowTextDocument (d : DocumentRef)
| OpenTextDocument (language content : string)
| ShowInformationMessage (msg : string)
| ExecuteCommand (command : string)
| ErrorHandling (error : JsError) (lbl : option string) (msg : string)
| LoadNamedProfile (name : string)
| CheckCurrentProfile (p : IProfileLoaded)
| GetJesApi (p : IProfileLoaded)
| DownloadSpoolContent (api : JesApi) (parms : IDownloadAllSpoolContentParms)
| GetJclForJob (api : JesApi) (j : option IJob)
| IssueSimple (session : Session) (command : string)
| ToUniqueJobFileUri (session : string) (spool : IJobFile) (unique : string)
| ProviderCheckCurrentProfile (node : NodeId)
| RefreshElement (node : option NodeId)
| AddSession (name : string)
| Delete (node : NodeId)
| GetTreeView
| SetItem (view : TreeView) (node : NodeId)
| GetProfile (node : NodeId)
| GetSession (node : NodeId)
| GetChildren (node : NodeId).

(** How a call ended, seen from the handler: it came back; it raised an
    exception into the handler (a synchronous throw, or the rejection of a
    promise the handler awaits); or it handed back a promise that the
    handler drops and that rejects with nobody listening. *)
Inductive Status :=
| Completed
| Raised (e : JsError)
| Unhandled (e : JsError).

Record Event := Ev { call : Call; status : Status }.

Definition Trace := list Event.

Definition ValidProfileEnum_eqb (a b : ValidProfileEnum) : bool :=
  match a, b with
  | VALID, VALID | UNVERIFIED, UNVERIFIED | INVALID, INVALID => true
  | _, _ => false
  end.

(** ** The store, the collaborators and the handlers *)

Section Model.

(** Whatever state the collaborators keep for themselves (the host's UI,
    the mainframe behind the REST client, ...). *)
Context {W : Type}.

(** What the handlers can observe and change: the tree nodes, the
    provider's [mSessionNodes], and [Profiles.getInstance().validProfile]. *)
Record Store := {
  nodes : NodeId -> IZoweJobTreeNode;
  mSessionNodes : list NodeId;
  validProfile : ValidProfileEnum;
  world : W;
}.

(** A synchronous and an asynchronous foreign function.  Foreign code runs
    on the same store: it may change nodes, the session list and the
    validity as well as its own state. *)
Definition sync (X : Type) : Type := Store -> Store * outcome X.
Definition async (X : Type) : Type := Store -> Store * outcome (promise X).

Record Env := {
  (* vscode-nls *)
  localize : string -> string -> string;
  (* vscode.window, vscode.workspace, vscode.commands *)
  showOpenDialog : OpenDialogOptions -> async (option (list Uri));
  showInputBox : InputBoxOptions -> async (option string);
  showTextDocument : DocumentRef -> async unit;
  openTextDocument : string -> string -> async TextDocument;
  showInformationMessage : string -> async unit;
  executeCommand : string -> async unit;
  (* ../utils/ProfilesUtils *)
  errorHandling : JsError -> option string -> string -> async unit;
  (* Profiles.getInstance() *)
  loadNamedProfile : string -> sync IProfileLoaded;
  checkCurrentProfile : IProfileLoaded -> async unit;
  (* ZoweExplorerApiRegister and the JES API it hands out *)
  getJesApi : IProfileLoaded -> sync JesApi;
  downloadSpoolContent : JesApi -> IDownloadAllSpoolContentParms -> async unit;
  getJclForJob : JesApi -> option IJob -> async string;
  (* zowe.IssueCommand *)
  issueSimple : Session -> string -> async IConsoleResponse;
  (* ../SpoolProvider; the curried call is one call here *)
  toUniqueJobFileUri : string -> IJobFile -> string -> sync Uri;
  (* IZoweTree<IZoweJobTreeNode> *)
  provider_checkCurrentProfile : NodeId -> async unit;
  refreshElement : option NodeId -> async unit;
  addSession : string -> async unit;
  provider_delete : NodeId -> async unit;
  getTreeView : sync TreeView;
  setItem : TreeView -> NodeId -> async unit;
  (* methods of IZoweJobTreeNode *)
  getProfile : NodeId -> sync IProfileLoaded;
  getSession : NodeId -> sync Session;
  getChildren : NodeId -> async (list NodeId);
}.

(** *** The evaluation monad *)

Definition M (A : Type) : Type := Store -> Store * Trace * completion A.

#[global] Instance M_ret : MRet M := fun A a s => (s, [], Normal a).

#[global] Instance M_bind : MBind M := fun A B f m s =>
  match m s with
  | (s1, t1, Normal a) => let '(s2, t2, c) := f a s1 in (s2, t1 ++ t2, c)
  | (s1, t1, Return) => (s1, t1, Return)
  | (s1, t1, Throw e) => (s1, t1, Throw e)
  end.

(** [throw e;] and [return;] *)
Definition throw {A} (e : JsError) : M A := fun s => (s, [], Throw e).
Definition return_ {A} : M A := fun s => (s, [], Return).

(** [try { body } catch (error) { handler }] *)
Definition try_catch {A} (body : M A) (handler : JsError -> M A) : M A :=
  fun s =>
    match body s with
    | (s1, t1, Throw e) => let '(s2, t2, c) := handler e s1 in (s2, t1 ++ t2, c)
    | r => r
    end.

(** The boundary of a function that returns nothing: [return;] ends it
    normally. *)
Definition function (body : M unit) : M unit :=
  fun s =>
    match body s with
    | (s1, t1, Return) => (s1, t1, Normal tt)
    | r => r
    end.

(** A call expression [f(args)] on a synchronous function. *)
Definition invoke {X} (c : Call) (f : sync X) : M X :=
  fun s =>
    match f s with
    | (s1, Returns x) => (s1, [Ev c Completed], Normal x)
    | (s1, Throws e) => (s1, [Ev c (Raised e)], Throw e)
    end.

(** [await f(args)] *)
Definition await {X} (c : Call) (f : async X) : M X :=
  fun s =>
    match f s with
    | (s1, Returns (Resolved x)) => (s1, [Ev c Completed], Normal x)
    | (s1, Returns (Rejected e)) => (s1, [Ev c (Raised e)], Throw e)
    | (s1, Throws e) => (s1, [Ev c (Raised e)], Throw e)
    end.

(** [f(args);] on a function whose promise is dropped. *)
Definition detach {X} (c : Call) (f : async X) : M unit :=
  fun s =>
    match f s with
    | (s1, Returns (Resolved _)) => (s1, [Ev c Completed], Normal tt)
    | (s1, Returns (Rejected e)) => (s1, [Ev c (Unhandled e)], Normal tt)
    | (s1, Throws e) => (s1, [Ev c (Raised e)], Throw e)
    end.

(** Reading the store; [reads] is for a read that can itself throw. *)
Definition gets {A} (f : Store -> A) : M A := fun s => (s, [], Normal (f s)).
Definition reads {A} (f : Store -> completion A) : M A := fun s => (s, [], f s).

(** [node.job.x]: reading a property of [node.job] throws when [node.job]
    is absent. *)
Definition job_of (node : NodeId) : M IJob :=
  fun s =>
    match job (nodes s node) with
    | Some j => (s, [], Normal j)
    | None => (s, [], Throw TypeError)
    end.

(** [node.job], passed on as it is. *)
Definition job_field (node : NodeId) : M (option IJob) :=
  gets (fun s => job (nodes s node)).

(** [a[0].x] *)
Definition first_of {A} (a : list A) : M A :=
  match a with
  | x :: _ => mret x
  | [] => throw TypeError
  end.

(** Assignments to the properties of a node. *)
Definition with_nodes (f : NodeId -> IZoweJobTreeNode) (s : Store) : Store :=
  {| nodes := f; mSessionNodes := mSessionNodes s;
     validProfile := validProfile s; world := world s |}.

Definition put_owner (v : option string) (n : IZoweJobTreeNode) :=
  {| label := label n; job := job n; owner := v; prefix := prefix n;
     searchId := searchId n |}.
Definition put_prefix (v : option string) (n : IZoweJobTreeNode) :=
  {| label := label n; job := job n; owner := owner n; prefix := v;
     searchId := searchId n |}.
Definition put_searchId (v : option string) (n : IZoweJobTreeNode) :=
  {| label := label n; job := job n; owner := owner n; prefix := prefix n;
     searchId := v |}.

Definition update_node (node : NodeId) (f : IZoweJobTreeNode -> IZoweJobTreeNode)
    (s : Store) : Store :=
  with_nodes (<[node := f (nodes s node)]> (nodes s)) s.

Definition assign (node : NodeId) (f : IZoweJobTreeNode -> IZoweJobTreeNode) : M unit :=
  fun s => (update_node node f s, [], Normal tt).

(** [array.find(pred)] over nodes, the predicate reading the node. *)
Definition find_node (pred : IZoweJobTreeNode -> bool) (a : list NodeId)
    : M (option NodeId) :=
  gets (fun s => List.find (fun n => pred (nodes s n)) a).

(** [jobs.find((jobNode) => jobNode.job.jobid === jobId)]: the predicate
    throws on a node without [job]. *)
Fixpoint find_jobid (s : Store) (jobId : string) (jobs : list NodeId)
    : completion (option NodeId) :=
  match jobs with
  | [] => Normal None
  | n :: rest =>
      match job (nodes s n) with
      | None => Throw TypeError
      | Some j => if String.eqb (jobid j) jobId then Normal (Some n)
                  else find_jobid s jobId rest
      end
  end.

(** [array.filter((jobNode) => jobNode.job !== undefined && jobNode.job !== null)] *)
Definition filter_jobs (s : Store) (a : list NodeId) : list NodeId :=
  List.filter (fun n => match job (nodes s n) with Some _ => true | None => false end) a.

End Model.

Arguments Store : clear implicits.
Arguments Env : clear implicits.
Arguments M : clear implicits.

(** ** The handlers of [job/actions.ts] *)

Section Handlers.

Context {W : Type} (env : Env W).

#[local] Abbreviation M := (M W).

(** [await errorHandling(error, label, error.message)] *)
Definition report (error : JsError) (lbl : option string) : M unit :=
  await (ErrorHandling error lbl (message error))
        (errorHandling env error lbl (message error)).

Definition downloadSpool (job : NodeId) : M unit :=
  function (
    try_catch
      (let options :=
         {| openLabel := localize env "downloadSpool.select" "Select";
            canSelectFolders := true;
            canSelectFiles := false;
            canSelectMany := false |} in
       dirUri ← await (ShowOpenDialog options) (showOpenDialog env options);
       match dirUri with
       | Some dirUri =>
           profile ← invoke (GetProfile job) (getProfile env job);
           api ← invoke (GetJesApi profile) (getJesApi env profile);
           j ← job_of job;
           dir ← first_of dirUri;
           let parms :=
             {| parms_jobid := jobid j;
                parms_jobname := jobname j;
                outDir := fsPath dir |} in
           detach (DownloadSpoolContent api parms) (downloadSpoolContent env api parms)
       | None => mret tt
       end)
      (fun error => report error None)).

Definition getSpoolContent (session : string) (spool : IJobFile)
    (refreshTimestamp : Z) : M unit :=
  function (
    zosmfProfile ←
      try_catch
        (invoke (LoadNamedProfile session) (loadNamedProfile env session))
        (fun error => report error (Some session);; return_);
    await (CheckCurrentProfile zosmfProfile) (checkCurrentProfile env zosmfProfile);;
    valid ← gets validProfile;
    if ValidProfileEnum_eqb valid VALID || ValidProfileEnum_eqb valid UNVERIFIED then
      let unique := number_toString refreshTimestamp in
      uri ← invoke (ToUniqueJobFileUri session spool unique)
                   (toUniqueJobFileUri env session spool unique);
      try_catch
        (await (ShowTextDocument (OfUri uri)) (showTextDocument env (OfUri uri)))
        (fun error => report error (Some session);; return_)
    else mret tt).

Definition refreshJobsServer (node : NodeId) : M unit :=
  function (
    detach (ProviderCheckCurrentProfile node) (provider_checkCurrentProfile env node);;
    valid ← gets validProfile;
    if ValidProfileEnum_eqb valid VALID || ValidProfileEnum_eqb valid UNVERIFIED then
      await (RefreshElement (Some node)) (refreshElement env (Some node))
    else mret tt).

Definition refreshJob (job : NodeId) : M unit :=
  function (
    detach (RefreshElement (Some job)) (refreshElement env (Some job))).

Definition downloadJcl (job : NodeId) : M unit :=
  function (
    try_catch
      (profile ← invoke (GetProfile job) (getProfile env job);
       api ← invoke (GetJesApi profile) (getJesApi env profile);
       j ← job_field job;
       jobJcl ← await (GetJclForJob api j) (getJclForJob env api j);
       jclDoc ← await (OpenTextDocument "jcl" jobJcl) (openTextDocument env "jcl" jobJcl);
       await (ShowTextDocument (OfDocument jclDoc))
             (showTextDocument env (OfDocument jclDoc)))
      (fun error => report error None)).

Definition focusOnJob (sessionName jobId : string) : M unit :=
  function (
    sessions ← gets mSessionNodes;
    found ← find_node
              (fun jobNode => String.eqb (trim (label jobNode)) (trim sessionName))
              sessions;
    sessionNode ←
      match found with
      | None =>
          try_catch
            (await (AddSession sessionName) (addSession env sessionName))
            (fun error => report error None;; return_);;
          sessions ← gets mSessionNodes;
          find_node (fun jobNode => String.eqb (label jobNode) sessionName) sessions
      | Some _ => mret found
      end;
    try_catch
      (detach (RefreshElement sessionNode) (refreshElement env sessionNode))
      (fun error => report error None;; return_);;
    match sessionNode with
    | None => throw TypeError
    | Some sessionNode =>
        assign sessionNode (put_searchId (Some jobId));;
        jobs ← await (GetChildren sessionNode) (getChildren env sessionNode);
        job ← reads (fun s => find_jobid s jobId jobs);
        match job with
        | Some job =>
            view ← invoke GetTreeView (getTreeView env);
            detach (SetItem view job) (setItem env view job)
        | None => mret tt
        end
    end).

Definition modifyCommand (job : NodeId) : M unit :=
  function (
    try_catch
      (let options :=
         {| prompt := localize env "modifyCommand.command.prompt" "Modify Command" |} in
       command ← await (ShowInputBox options) (showInputBox env options);
       match command with
       | Some command =>
           session ← invoke (GetSession job) (getSession env job);
           j ← job_of job;
           let text := "f " +:+ jobname j +:+ "," +:+ command in
           response ← await (IssueSimple session text) (issueSimple env session text);
           let msg := localize env "modifyCommand.response" "Command response: "
                      +:+ commandResponse response in
           detach (ShowInformationMessage msg) (showInformationMessage env msg)
       | None => mret tt
       end)
      (fun error => report error None)).

Definition stopCommand (job : NodeId) : M unit :=
  function (
    try_catch
      (session ← invoke (GetSession job) (getSession env job);
       j ← job_of job;
       let text := "p " +:+ jobname j in
       response ← await (IssueSimple session text) (issueSimple env session text);
       let msg := localize env "stopCommand.response" "Command response: "
                  +:+ commandResponse response in
       detach (ShowInformationMessage msg) (showInformationMessage env msg))
      (fun error => report error None)).

Definition setOwner (job : NodeId) : M unit :=
  function (
    let options := {| prompt := localize env "setOwner.newOwner.prompt.owner" "Owner" |} in
    newOwner ← await (ShowInputBox options) (showInputBox env options);
    assign job (put_owner newOwner);;
    detach (RefreshElement (Some job)) (refreshElement env (Some job))).

Definition setPrefix (job : NodeId) : M unit :=
  function (
    let options := {| prompt := localize env "setOwner.newOwner.prompt.prefix" "Prefix" |} in
    newPrefix ← await (ShowInputBox options) (showInputBox env options);
    assign job (put_prefix newPrefix);;
    detach (RefreshElement (Some job)) (refreshElement env (Some job))).

(** The body of [for (const node of nodes)] in [deleteCommand], threading
    the array [deletedNodes]. *)
Fixpoint delete_each (nodes : list NodeId) (deletedNodes : list string)
    : M (list string) :=
  match nodes with
  | [] => mret deletedNodes
  | node :: rest =>
      await (Delete node) (provider_delete env node);;
      j ← job_of node;
      delete_each rest
        (unshift (" " +:+ jobname j +:+ "(" +:+ jobid j +:+ ")") deletedNodes)
  end.

Definition refreshAllJobs : string := "zowe.jobs.refreshAllJobs".

Definition deleteCommand (job : option NodeId) : M unit :=
  function (
    let deletedNodes := [" "] in
    view ← invoke GetTreeView (getTreeView env);
    let selectedNodes := selection view in
    nodes ← gets (fun s => filter_jobs s selectedNodes);
    (if (0 <? length nodes)%nat then
       deletedNodes ← delete_each nodes deletedNodes;
       let deletedNodes := pop deletedNodes in
       let msg := localize env "deleteMulti.job" "The following jobs were deleted:"
                  +:+ array_toString deletedNodes in
       detach (ShowInformationMessage msg) (showInformationMessage env msg)
     else mret tt);;
    match job with
    | Some job =>
        if negb (0 <? length nodes)%nat then
          detach (Delete job) (provider_delete env job);;
          j ← job_of job;
          let msg := localize env "deleteCommand.job" "Job "
                     +:+ jobname j +:+ "(" +:+ jobid j +:+ ")"
                     +:+ localize env "deleteCommand.delete" " deleted" in
          detach (ShowInformationMessage msg) (showInformationMessage env msg)
        else mret tt
    | None => mret tt
    end;;
    await (ExecuteCommand refreshAllJobs) (executeCommand env refreshAllJobs)).

(** One invocation of a handler of the module, with its arguments. *)
Inductive Invocation :=
| DownloadSpool (job : NodeId)
| GetSpoolContent (session : string) (spool : IJobFile) (refreshTimestamp : Z)
| RefreshJobsServer (node : NodeId)
| RefreshJob (job : NodeId)
| DownloadJcl (job : NodeId)
| FocusOnJob (sessionName jobId : string)
| ModifyCommand (job : NodeId)
| StopCommand (job : NodeId)
| SetOwner (job : NodeId)
| SetPrefix (job : NodeId)
| DeleteCommand (job : option NodeId).

Definition handle (i : Invocation) : M unit :=
  match i with
  | DownloadSpool job => downloadSpool job
  | GetSpoolContent session spool refreshTimestamp =>
      getSpoolContent session spool refreshTimestamp
  | RefreshJobsServer node => refreshJobsServer node
  | RefreshJob job => refreshJob job
  | DownloadJcl job => downloadJcl job
  | FocusOnJob sessionName jobId => focusOnJob sessionName jobId
  | ModifyCommand job => modifyCommand job
  | StopCommand job => stopCommand job
  | SetOwner job => setOwner job
  | SetPrefix job => setPrefix job
  | DeleteCommand job => deleteCommand job
  end.

End Handlers.

Arguments Invocation : clear implicits.

(** ** Observing a run *)

Section Observers.

Context {W : Type}.

Definition store_after {A} (r : Store W * Trace * completion A) : Store W := r.1.1.
Definition trace {A} (r : Store W * Trace * completion A) : Trace := r.1.2.
Definition result {A} (r : Store W * Trace * completion A) : completion A := r.2.

(** What [detach] records and yields for a dropped call that ended as [o]. *)
Definition dropped_status {X} (o : outcome (promise X)) : Status :=
  match o with
  | Returns (Resolved _) => Completed
  | Returns (Rejected e) => Unhandled e
  | Throws e => Raised e
  end.

Definition dropped_result {X} (o : outcome (promise X)) : completion unit :=
  match o with
  | Returns _ => Normal tt
  | Throws e => Throw e
  end.

(** What [await] records and yields for an awaited call that ended as [o]. *)
Definition awaited_status {X} (o : outcome (promise X)) : Status :=
  match o with
  | Returns (Resolved _) => Completed
  | Returns (Rejected e) => Raised e
  | Throws e => Raised e
  end.

Definition awaited_result {X} (o : outcome (promise X)) : completion X :=
  match o with
  | Returns (Resolved x) => Normal x
  | Returns (Rejected e) => Throw e
  | Throws e => Throw e
  end.

End Observers.

(** The calls to the error reporter. *)
Definition is_report (ev : Event) : bool :=
  match call ev with ErrorHandling _ _ _ => true | _ => false end.

Definition reports (t : Trace) : nat := length (filter is_report t).

(** A call of a collaborator other than the reporter raised an exception
    into the handler. *)
Definition raised_in (ev : Event) : bool :=
  match status ev with
  | Raised _ => negb (is_report ev)
  | _ => false
  end.

(** Calls that act on the API facade, the tree provider or the
    command-issuing facility. *)
Definition is_mutation (c : Call) : bool :=
  match c with
  | GetJesApi _ | DownloadSpoolContent _ _ | GetJclForJob _ _ => true
  | IssueSimple _ _ => true
  | ProviderCheckCurrentProfile _ | RefreshElement _ | AddSession _
  | Delete _ | GetTreeView | SetItem _ _ => true
  | _ => false
  end.

(** The operator commands issued through [issueSimple], in order. *)
Fixpoint issued (t : Trace) : list (Session * string) :=
  match t with
  | [] => []
  | Ev (IssueSimple session command) _ :: r => (session, command) :: issued r
  | _ :: r => issued r
  end.

(** The spool downloads requested, in order. *)
Fixpoint downloads (t : Trace) : list (JesApi * IDownloadAllSpoolContentParms) :=
  match t with
  | [] => []
  | Ev (DownloadSpoolContent api parms) _ :: r => (api, parms) :: downloads r
  | _ :: r => downloads r
  end.

(** The input boxes and dialogs shown. *)
Definition is_prompt (ev : Event) : bool :=
  match call ev with ShowInputBox _ | ShowOpenDialog _ => true | _ => false end.

(** The documents shown. *)
Fixpoint shown (t : Trace) : list DocumentRef :=
  match t with
  | [] => []
  | Ev (ShowTextDocument d) _ :: r => d :: shown r
  | _ :: r => shown r
  end.

(** The sessions added, the nodes deleted, the notifications shown and the
    commands broadcast. *)
Fixpoint added (t : Trace) : list string :=
  match t with
  | [] => []
  | Ev (AddSession name) _ :: r => name :: added r
  | _ :: r => added r
  end.

Fixpoint deleted (t : Trace) : list NodeId :=
  match t with
  | [] => []
  | Ev (Delete node) _ :: r => node :: deleted r
  | _ :: r => deleted r
  end.

Fixpoint notified (t : Trace) : list string :=
  match t with
  | [] => []
  | Ev (ShowInformationMessage msg) _ :: r => msg :: notified r
  | _ :: r => notified r
  end.


(** ** A scripted environment

    Concrete collaborators for running the handlers: the store's [world] is
    a script that says how each collaborator answers. *)

Module Demo.

Record Script := {
  dialog : outcome (promise (option (list Uri)));
  input : outcome (promise (option string));
  load : outcome IProfileLoaded;
  validity : ValidProfileEnum;
  console : outcome (promise IConsoleResponse);
  refreshing : outcome (promise unit);
  removal : outcome (promise unit);
  view : TreeView;
  created : list NodeId;
  children : list NodeId;
  reporting : outcome (promise unit);
}.

Definition answer {X} (f : Script -> outcome X) : sync (W := Script) X :=
  fun s => (s, f (world s)).

Definition always {X} (x : X) : async (W := Script) X :=
  fun s => (s, Returns (Resolved x)).

Definition env : Env Script := {|
  localize := fun _ message => message;
  showOpenDialog := fun _ => answer dialog;
  showInputBox := fun _ => answer input;
  showTextDocument := fun _ => always tt;
  openTextDocument := fun _ _ => always 40;
  showInformationMessage := fun _ => always tt;
  executeCommand := fun _ => always tt;
  errorHandling := fun _ _ _ => answer reporting;
  loadNamedProfile := fun _ => answer load;
  checkCurrentProfile := fun _ s =>
    ({| nodes := nodes s; mSessionNodes := mSessionNodes s;
        validProfile := validity (world s); world := world s |},
     Returns (Resolved tt));
  getJesApi := fun p s => (s, Returns (100 + p));
  downloadSpoolContent := fun _ _ => always tt;
  getJclForJob := fun _ _ => always "//JOB";
  issueSimple := fun _ _ => answer console;
  toUniqueJobFileUri := fun session _ unique s =>
    (s, Returns {| fsPath := session +:+ "/" +:+ unique |});
  provider_checkCurrentProfile := fun _ => always tt;
  refreshElement := fun _ => answer refreshing;
  addSession := fun _ s =>
    ({| nodes := nodes s; mSessionNodes := mSessionNodes s ++ created (world s);
        validProfile := validProfile s; world := world s |},
     Returns (Resolved tt));
  provider_delete := fun _ => answer removal;
  getTreeView := answer (fun sc => Returns (view sc));
  setItem := fun _ _ => always tt;
  getProfile := fun n s => (s, Returns (20 + n));
  getSession := fun n s => (s, Returns (30 + n));
  getChildren := fun _ => answer (fun sc => Returns (Resolved (children sc)));
|}.

Definition plain (l : string) : IZoweJobTreeNode :=
  {| label := l; job := None; owner := None; prefix := None; searchId := None |}.

Definition job_node (name id : string) : IZoweJobTreeNode :=
  {| label := name +:+ "(" +:+ id +:+ ")";
     job := Some {| jobid := id; jobname := name |};
     owner := Some "IBMUSER"; prefix := Some "*"; searchId := None |}.

(** Nodes 1, 2, 3 are the jobs A(1), B(2), C(3); 10 and 11 are the session
    nodes "zosmf" and "lpar2"; 12 is a session node labelled " padded ". *)
Definition heap (n : NodeId) : IZoweJobTreeNode :=
  match n with
  | 1 => job_node "A" "1"
  | 2 => job_node "B" "2"
  | 3 => job_node "C" "3"
  | 10 => plain "zosmf"
  | 11 => plain "lpar2"
  | 12 => plain " padded "
  | _ => plain ""
  end.

Definition boom : JsError := {| message := "boom" |}.

(** The script in which every collaborator succeeds and every prompt is
    answered. *)
Definition happy : Script := {|
  dialog := Returns (Resolved (Some [{| fsPath := "/tmp/spool" |}]));
  input := Returns (Resolved (Some "HELLO"));
  load := Returns 7;
  validity := VALID;
  console := Returns (Resolved {| commandResponse := "OK" |});
  refreshing := Returns (Resolved tt);
  removal := Returns (Resolved tt);
  view := {| selection := [] |};
  created := [];
  children := [1; 2; 3];
  reporting := Returns (Resolved tt);
|}.

(** Variations of a script, one answer at a time. *)
Definition with_dialog v (sc : Script) : Script :=
  Build_Script v (input sc) (load sc) (validity sc) (console sc) (refreshing sc)
    (removal sc) (view sc) (created sc) (children sc) (reporting sc).
Definition with_input v (sc : Script) : Script :=
  Build_Script (dialog sc) v (load sc) (validity sc) (console sc) (refreshing sc)
    (removal sc) (view sc) (created sc) (children sc) (reporting sc).
Definition with_load v (sc : Script) : Script :=
  Build_Script (dialog sc) (input sc) v (validity sc) (console sc) (refreshing sc)
    (removal sc) (view sc) (created sc) (children sc) (reporting sc).
Definition with_validity v (sc : Script) : Script :=
  Build_Script (dialog sc) (input sc) (load sc) v (console sc) (refreshing sc)
    (removal sc) (view sc) (created sc) (children sc) (reporting sc).
Definition with_console v (sc : Script) : Script :=
  Build_Script (dialog sc) (input sc) (load sc) (validity sc) v (refreshing sc)
    (removal sc) (view sc) (created sc) (children sc) (reporting sc).
Definition with_view v (sc : Script) : Script :=
  Build_Script (dialog sc) (input sc) (load sc) (validity sc) (console sc)
    (refreshing sc) (removal sc) v (created sc) (children sc) (reporting sc).
Definition with_created v (sc : Script) : Script :=
  Build_Script (dialog sc) (input sc) (load sc) (validity sc) (console sc)
    (refreshing sc) (removal sc) (view sc) v (children sc) (reporting sc).
Definition with_children v (sc : Script) : Script :=
  Build_Script (dialog sc) (input sc) (load sc) (validity sc) (console sc)
    (refreshing sc) (removal sc) (view sc) (created sc) v (reporting sc).

Definition store (sessions : list NodeId) (sc : Script) : Store Script :=
  {| nodes := heap; mSessionNodes := sessions; validProfile := INVALID; world := sc |}.

End Demo.

(** ** Options and scenarios the statements refer to *)

(** The options [modifyCommand] gives the input box. *)
Definition modify_prompt {W} (env : Env W) : InputBoxOptions :=
  {| prompt := localize env "modifyCommand.command.prompt" "Modify Command" |}.

(** The store in which job A(1), owned by IBMUSER with prefix "*", is about
    to be edited and the user dismisses the input box. *)
Definition dismissed : Store Demo.Script :=
  Demo.store [10] (Demo.with_input (Returns (Resolved None)) Demo.happy).

(** The store in which every collaborator succeeds and the input box is
    answered with "HELLO". *)
Definition answered : Store Demo.Script := Demo.store [10] Demo.happy.

(** The user presses Enter on an empty input box. *)
Definition submitted_empty : Store Demo.Script :=
  Demo.store [10] (Demo.with_input (Returns (Resolved (Some ""))) Demo.happy).

(** The options [downloadSpool] gives the folder picker. *)
Definition spool_dialog {W} (env : Env W) : OpenDialogOptions :=
  {| openLabel := localize env "downloadSpool.select" "Select";
     canSelectFolders := true;
     canSelectFiles := false;
     canSelectMany := false |}.

(** The options [setOwner] and [setPrefix] give the input box. *)
Definition owner_prompt {W} (env : Env W) : InputBoxOptions :=
  {| prompt := localize env "setOwner.newOwner.prompt.owner" "Owner" |}.
Definition prefix_prompt {W} (env : Env W) : InputBoxOptions :=
  {| prompt := localize env "setOwner.newOwner.prompt.prefix" "Prefix" |}.

(** The user cancels the prompt or dialog of invocation [i] started in store
    [s]: the promise of the prompt resolves to the absent value, leaving the
    store [s1].  Handlers without a prompt cannot be cancelled. *)
Definition cancels {W} (env : Env W) (i : Invocation) (s s1 : Store W) : Prop :=
  match i with
  | DownloadSpool _ => showOpenDialog env (spool_dialog env) s = (s1, Returns (Resolved None))
  | ModifyCommand _ => showInputBox env (modify_prompt env) s = (s1, Returns (Resolved None))
  | SetOwner _ => showInputBox env (owner_prompt env) s = (s1, Returns (Resolved None))
  | SetPrefix _ => showInputBox env (prefix_prompt env) s = (s1, Returns (Resolved None))
  | _ => False
  end.

(** A run that, starting from the store [s1] the cancelled prompt left,
    assigned no property of any node and called neither the API facade, nor
    the tree provider, nor the command-issuing facility. *)
Definition untouched {W} (r : Store W * Trace * completion unit) (s1 : Store W) : Prop :=
  (forall n, nodes (store_after r) n = nodes s1 n)
  /\ Forall (fun ev => is_mutation (call ev) = false) (trace r).

(** The user dismisses the folder picker. *)
Definition no_folder : Store Demo.Script :=
  Demo.store [10] (Demo.with_dialog (Returns (Resolved None)) Demo.happy).

(** The profile "nope" cannot be loaded. *)
Definition unknown_profile : Store Demo.Script :=
  Demo.store [10] (Demo.with_load (Throws Demo.boom) Demo.happy).

(** The tree view has the jobs A(1) and B(2) selected, next to a session
    node. *)
Definition two_selected : Store Demo.Script :=
  Demo.store [10] (Demo.with_view {| selection := [10; 1; 2] |} Demo.happy).

(** The tree view has only a session node selected. *)
Definition session_selected : Store Demo.Script :=
  Demo.store [10] (Demo.with_view {| selection := [10] |} Demo.happy).


(** [jobsProvider.mSessionNodes.find(...)] as [focusOnJob] evaluates it: the
    first look-up compares trimmed labels, the one after [addSession] the
    labels as they are. *)
Definition session_by_trimmed_label {W} (sessionName : string) (s : Store W)
    : option NodeId :=
  List.find (fun n => String.eqb (trim (label (nodes s n))) (trim sessionName))
            (mSessionNodes s).

Definition session_by_label {W} (sessionName : string) (s : Store W) : option NodeId :=
  List.find (fun n => String.eqb (label (nodes s n)) sessionName) (mSessionNodes s).

(** The session "zosmf" is not in the tree yet; [addSession] creates node
    10 for it. *)
Definition session_missing : Store Demo.Script :=
  Demo.store [11] (Demo.with_created [10] Demo.happy).

(** The same tree once [addSession] has appended node 10. *)
Definition session_created : Store Demo.Script :=
  Demo.store [11; 10] (Demo.with_created [10] Demo.happy).

(** The input box fails: its promise rejects. *)
Definition input_fails : Store Demo.Script :=
  Demo.store [10] (Demo.with_input (Returns (Rejected Demo.boom)) Demo.happy).

(** The operator command is refused by the mainframe. *)
Definition command_refused : Store Demo.Script :=
  Demo.store [10] (Demo.with_console (Returns (Rejected Demo.boom)) Demo.happy).

(** The calls a handler makes inside a [try] block whose [catch] hands the
    error to the reporter. *)
Definition caught (i : Invocation) (c : Call) : bool :=
  match i with
  | DownloadSpool _ | DownloadJcl _ | ModifyCommand _ | StopCommand _ =>
      match c with ErrorHandling _ _ _ => false | _ => true end
  | GetSpoolContent _ _ _ =>
      match c with LoadNamedProfile _ | ShowTextDocument _ => true | _ => false end
  | FocusOnJob _ _ =>
      match c with AddSession _ | RefreshElement _ => true | _ => false end
  | RefreshJobsServer _ | RefreshJob _ | SetOwner _ | SetPrefix _ | DeleteCommand _ =>
      false
  end.

(** A call inside such a [try] block raised an exception into the handler. *)
Definition raised_caught (i : Invocation) (ev : Event) : bool :=
  raised_in ev && caught i (call ev).

(** Every call of the error reporter came back. *)
Definition reporter_returned (t : Trace) : bool :=
  forallb (fun ev => negb (is_report ev)
                     || match status ev with Completed => true | _ => false end) t.

(** A run that called the error reporter exactly once and let no exception
    out of the handler. *)
Definition reported_once_and_contained {W} (r : Store W * Trace * completion unit) : Prop :=
  reports (trace r) = 1 /\ result r = Normal tt.

(** ** A scripted environment with faults

    The collaborators of [Demo.env], each of which can in addition be made
    to fail: the plan names, per call, the error it throws or the error its
    promise rejects with. *)

Module Faulty.

Inductive Fault :=
| Synchronously (e : JsError)
| Asynchronously (e : JsError).

Record Plan := {
  script : Demo.Script;
  fault : Call -> option Fault;
}.

Definition answer {X} (f : Demo.Script -> outcome X) : sync (W := Plan) X :=
  fun s => (s, f (script (world s))).

Definition always {X} (x : X) : async (W := Plan) X :=
  fun s => (s, Returns (Resolved x)).

Definition failing_sync {X} (c : Call) (ok : sync (W := Plan) X) : sync (W := Plan) X :=
  fun s =>
    match fault (world s) c with
    | Some (Synchronously e) | Some (Asynchronously e) => (s, Throws e)
    | None => ok s
    end.

Definition failing_async {X} (c : Call) (ok : async (W := Plan) X) : async (W := Plan) X :=
  fun s =>
    match fault (world s) c with
    | Some (Synchronously e) => (s, Throws e)
    | Some (Asynchronously e) => (s, Returns (Rejected e))
    | None => ok s
    end.

Definition env : Env Plan := {|
  localize := fun _ message => message;
  showOpenDialog := fun o => failing_async (ShowOpenDialog o) (answer Demo.dialog);
  showInputBox := fun o => failing_async (ShowInputBox o) (answer Demo.input);
  showTextDocument := fun d => failing_async (ShowTextDocument d) (always tt);
  openTextDocument := fun l c => failing_async (OpenTextDocument l c) (always 40);
  showInformationMessage := fun m => failing_async (ShowInformationMessage m) (always tt);
  executeCommand := fun c => failing_async (ExecuteCommand c) (always tt);
  errorHandling := fun e l m => failing_async (ErrorHandling e l m) (always tt);
  loadNamedProfile := fun n => failing_sync (LoadNamedProfile n) (answer Demo.load);
  checkCurrentProfile := fun p =>
    failing_async (CheckCurrentProfile p)
      (fun s =>
         ({| nodes := nodes s; mSessionNodes := mSessionNodes s;
             validProfile := Demo.validity (script (world s)); world := world s |},
          Returns (Resolved tt)));
  getJesApi := fun p => failing_sync (GetJesApi p) (fun s => (s, Returns (100 + p)));
  downloadSpoolContent := fun a p => failing_async (DownloadSpoolContent a p) (always tt);
  getJclForJob := fun a j => failing_async (GetJclForJob a j) (always "//JOB");
  issueSimple := fun se c => failing_async (IssueSimple se c) (answer Demo.console);
  toUniqueJobFileUri := fun session spool unique =>
    failing_sync (ToUniqueJobFileUri session spool unique)
      (fun s => (s, Returns {| fsPath := session +:+ "/" +:+ unique |}));
  provider_checkCurrentProfile := fun n =>
    failing_async (ProviderCheckCurrentProfile n) (always tt);
  refreshElement := fun n => failing_async (RefreshElement n) (always tt);
  addSession := fun name =>
    failing_async (AddSession name)
      (fun s =>
         ({| nodes := nodes s;
             mSessionNodes := mSessionNodes s ++ Demo.created (script (world s));
             validProfile := validProfile s; world := world s |},
          Returns (Resolved tt)));
  provider_delete := fun n => failing_async (Delete n) (always tt);
  getTreeView := failing_sync GetTreeView (answer (fun sc => Returns (Demo.view sc)));
  setItem := fun v n => failing_async (SetItem v n) (always tt);
  getProfile := fun n => failing_sync (GetProfile n) (fun s => (s, Returns (20 + n)));
  getSession := fun n => failing_sync (GetSession n) (fun s => (s, Returns (30 + n)));
  getChildren := fun n =>
    failing_async (GetChildren n)
      (answer (fun sc => Returns (Resolved (Demo.children sc))));
|}.

(** No call fails. *)
Definition sound : Call -> option Fault := fun _ => None.

Definition store (sessions : list NodeId) (valid : ValidProfileEnum)
    (sc : Demo.Script) (f : Call -> option Fault) : Store Plan :=
  {| nodes := Demo.heap; mSessionNodes := sessions; validProfile := valid;
     world := {| script := sc; fault := f |} |}.

End Faulty.

(** ** Further vocabulary for the statements *)

(** The entry [deleteCommand] builds for a deleted job. *)
Definition listed (j : IJob) : string :=
  " " +:+ jobname j +:+ "(" +:+ jobid j +:+ ")".

(** The awaited deletions of the nodes [l], one after the other from store
    [s] to store [s'], all resolve, and [js] are the job descriptors the
    nodes carry when their deletion has resolved. *)
Inductive deletes {W} (env : Env W) : list NodeId -> Store W -> Store W -> list IJob -> Prop :=
| deletes_nil s : deletes env [] s s []
| deletes_cons n rest s s1 s' j js :
    provider_delete env n s = (s1, Returns (Resolved tt)) ->
    job (nodes s1 n) = Some j ->
    deletes env rest s1 s' js ->
    deletes env (n :: rest) s s' (j :: js).

(** The label the reporter is given by the handler of invocation [i]. *)
Definition report_label (i : Invocation) : option string :=
  match i with
  | GetSpoolContent session _ _ => Some session
  | _ => None
  end.

(** The handlers that contain a [try] block. *)
Definition has_try (i : Invocation) : bool :=
  match i with
  | DownloadSpool _ | DownloadJcl _ | ModifyCommand _ | StopCommand _
  | GetSpoolContent _ _ _ | FocusOnJob _ _ => true
  | _ => false
  end.

(** The handlers that open an input box or a dialog. *)
Definition prompting (i : Invocation) : bool :=
  match i with
  | DownloadSpool _ | ModifyCommand _ | SetOwner _ | SetPrefix _ => true
  | _ => false
  end.

(** The session nodes refreshed and the items selected in the tree, in
    order. *)
Fixpoint refreshed (t : Trace) : list (option NodeId) :=
  match t with
  | [] => []
  | Ev (RefreshElement node) _ :: r => node :: refreshed r
  | _ :: r => refreshed r
  end.

Fixpoint selected (t : Trace) : list NodeId :=
  match t with
  | [] => []
  | Ev (SetItem _ node) _ :: r => node :: selected r
  | _ :: r => selected r
  end.

(** What is left of a completion at the end of a handler. *)
Definition settle {A} (c : completion A) : completion unit :=
  match c with
  | Normal _ | Return => Normal tt
  | Throw e => Throw e
  end.

(** The profile is valid, and the provider's profile check, which nobody
    awaits, rejects. *)
Definition check_rejects : Store Faulty.Plan :=
  Faulty.store [10] VALID Demo.happy
    (fun c => match c with
              | ProviderCheckCurrentProfile _ => Some (Faulty.Asynchronously Demo.boom)
              | _ => None
              end).

(** Every collaborator succeeds; the profile is valid. *)
Definition all_well : Store Faulty.Plan :=
  Faulty.store [10] VALID Demo.happy Faulty.sound.

(** The spool download is accepted and fails later on. *)
Definition download_rejects : Store Faulty.Plan :=
  Faulty.store [10] VALID Demo.happy
    (fun c => match c with
              | DownloadSpoolContent _ _ => Some (Faulty.Asynchronously Demo.boom)
              | _ => None
              end).

(** The operator command is refused: the promise of [issueSimple] rejects. *)
Definition issue_rejects : Store Faulty.Plan :=
  Faulty.store [10] VALID Demo.happy
    (fun c => match c with
              | IssueSimple _ _ => Some (Faulty.Asynchronously Demo.boom)
              | _ => None
              end).

(** The spool document cannot be shown. *)
Definition show_rejects : Store Faulty.Plan :=
  Faulty.store [10] INVALID Demo.happy
    (fun c => match c with
              | ShowTextDocument _ => Some (Faulty.Asynchronously Demo.boom)
              | _ => None
              end).

(** The profile check of the profile singleton fails. *)
Definition profile_check_rejects : Store Faulty.Plan :=
  Faulty.store [10] VALID Demo.happy
    (fun c => match c with
              | CheckCurrentProfile _ => Some (Faulty.Asynchronously Demo.boom)
              | _ => None
              end).

(** The session "zosmf" is not in the tree and cannot be added. *)
Definition add_rejects : Store Faulty.Plan :=
  Faulty.store [11] VALID (Demo.with_created [10] Demo.happy)
    (fun c => match c with
              | AddSession _ => Some (Faulty.Asynchronously Demo.boom)
              | _ => None
              end).

(** Refreshing a node throws. *)
Definition refresh_throws : Store Faulty.Plan :=
  Faulty.store [10] VALID Demo.happy
    (fun c => match c with
              | RefreshElement _ => Some (Faulty.Synchronously Demo.boom)
              | _ => None
              end).

(** The jobs of a session cannot be fetched. *)
Definition children_reject : Store Faulty.Plan :=
  Faulty.store [10] VALID Demo.happy
    (fun c => match c with
              | GetChildren _ => Some (Faulty.Asynchronously Demo.boom)
              | _ => None
              end).

(** The session node 10 has, before the job B(2), a child that is not a job
    (node 11). *)
Definition odd_child : Store Faulty.Plan :=
  Faulty.store [10] VALID (Demo.with_children [1; 11; 2] Demo.happy) Faulty.sound.

(** The jobs C(3), A(1) and B(2) are selected, in this order. *)
Definition three_selected : Store Faulty.Plan :=
  Faulty.store [10] VALID (Demo.with_view {| selection := [3; 1; 2] |} Demo.happy)
    Faulty.sound.

(** The same selection; the deletion of A(1) is refused. *)
Definition second_delete_rejects : Store Faulty.Plan :=
  Faulty.store [10] VALID (Demo.with_view {| selection := [3; 1; 2] |} Demo.happy)
    (fun c => match c with
              | Delete 1 => Some (Faulty.Asynchronously Demo.boom)
              | _ => None
              end).

(** Nothing is selected and every deletion is refused. *)
Definition delete_rejects : Store Faulty.Plan :=
  Faulty.store [10] VALID Demo.happy
    (fun c => match c with
              | Delete _ => Some (Faulty.Asynchronously Demo.boom)
              | _ => None
              end).

(** [Number.isSafeInteger], on an integral number. *)
Definition safe_integer (n : Z) : Prop := (Z.abs n <= 9007199254740991)%Z.

(** The requests for a spool URI: session, spool file and unique fragment. *)
Fixpoint uri_requests (t : Trace) : list (string * IJobFile * string) :=
  match t with
  | [] => []
  | Ev (ToUniqueJobFileUri session spool unique) _ :: r =>
      (session, spool, unique) :: uri_requests r
  | _ :: r => uri_requests r
  end.


(** ** Proof support *)

(** Unfolds a handler down to the calls of its collaborators. *)
Ltac expose :=
  cbv beta zeta delta
    [handle downloadSpool getSpoolContent refreshJobsServer refreshJob
     downloadJcl focusOnJob modifyCommand stopCommand setOwner setPrefix
     deleteCommand report function try_catch mbind M_bind mret M_ret invoke
     await detach gets reads assign job_of job_field first_of throw return_
     find_node store_after trace result] in *.

(** Case analysis on the next collaborator call, or branch, of the goal. *)
Ltac branch := case_match; simplify_eq/=; try done.

(** The same inside the equation [H] of a run, innermost call first. *)
Ltac step_in H :=
  match type of H with
  | context [match ?x with _ => _ end] =>
      lazymatch x with
      | context [match _ with _ => _ end] => fail
      | _ => destruct x eqn:?
      end
  end; simpl in H.

Section StoreUpdates.

Context {W : Type} (env : Env W).

Lemma update_node_same (s : Store W) node f :
  nodes (update_node node f s) node = f (nodes s node).
Proof. unfold update_node, with_nodes. simpl. apply fn_lookup_insert. Qed.

Lemma update_node_other (s : Store W) node f other :
  other ≠ node -> nodes (update_node node f s) other = nodes s other.
Proof.
  intros Hne. unfold update_node, with_nodes. simpl.
  by apply fn_lookup_insert_ne.
Qed.

End StoreUpdates.

(** ** setOwner and setPrefix *)

(** C8. [setOwner] (and in the same way [setPrefix]): once the input box has
    resolved to [v], be it a string or the absent value of a cancelled
    prompt, the handler assigns [v] to the node's [owner] (respectively
    [prefix]) property and then calls [refreshElement] on that node, once and
    on the store that holds the assignment; nothing else is called.  A
    cancelled prompt therefore overwrites the property with the absent
    value. *)
Theorem setOwner_setPrefix_assign_unconditionally {W} (env : Env W) (job : NodeId)
    (s s1 s2 p p1 p2 : Store W) (v u : option string) (o q : outcome (promise unit))
    (Howner : showInputBox env
                (owner_prompt env) s
              = (s1, Returns (Resolved v)))
    (Hrefresh : refreshElement env (Some job) (update_node job (put_owner v) s1) = (s2, o))
    (Hprefix : showInputBox env
                 (prefix_prompt env) p
               = (p1, Returns (Resolved u)))
    (Hrefresh' : refreshElement env (Some job) (update_node job (put_prefix u) p1) = (p2, q)) :
  setOwner env job s
  = (s2,
     [Ev (ShowInputBox (owner_prompt env))
         Completed;
      Ev (RefreshElement (Some job)) (dropped_status o)],
     dropped_result o)
  /\ owner (nodes (update_node job (put_owner v) s1) job) = v
  /\ setPrefix env job p
     = (p2,
        [Ev (ShowInputBox (prefix_prompt env))
            Completed;
         Ev (RefreshElement (Some job)) (dropped_status q)],
        dropped_result q)
  /\ prefix (nodes (update_node job (put_prefix u) p1) job) = u.
Proof.
  unfold owner_prompt, prefix_prompt in *. repeat split.
  - expose. rewrite Howner. simpl. rewrite Hrefresh. by destruct o as [[]|].
  - by rewrite update_node_same.
  - expose. rewrite Hprefix. simpl. rewrite Hrefresh'. by destruct q as [[]|].
  - by rewrite update_node_same.
Qed.

Lemma setOwner_setPrefix_assign_unconditionally_witness :
  (owner (nodes dismissed 1) = Some "IBMUSER" /\ prefix (nodes dismissed 1) = Some "*")
  /\ setOwner Demo.env 1 dismissed
     = (update_node 1 (put_owner None) dismissed,
        [Ev (ShowInputBox {| prompt := "Owner" |}) Completed;
         Ev (RefreshElement (Some 1)) Completed],
        Normal tt)
  /\ owner (nodes (update_node 1 (put_owner None) dismissed) 1) = None
  /\ setPrefix Demo.env 1 dismissed
     = (update_node 1 (put_prefix None) dismissed,
        [Ev (ShowInputBox {| prompt := "Prefix" |}) Completed;
         Ev (RefreshElement (Some 1)) Completed],
        Normal tt)
  /\ prefix (nodes (update_node 1 (put_prefix None) dismissed) 1) = None.
Proof.
  split; [split; reflexivity|].
  exact (setOwner_setPrefix_assign_unconditionally Demo.env 1
           dismissed dismissed (update_node 1 (put_owner None) dismissed)
           dismissed dismissed (update_node 1 (put_prefix None) dismissed)
           None None (Returns (Resolved tt)) (Returns (Resolved tt))
           eq_refl eq_refl eq_refl eq_refl).
Defined.

(** ** modifyCommand and stopCommand *)

Section Commands.

Context {W : Type} (env : Env W).

Lemma modifyCommand_issues node (s s1 s2 : Store W) input session j :
  showInputBox env (modify_prompt env) s = (s1, Returns (Resolved (Some input))) ->
  getSession env node s1 = (s2, Returns session) ->
  job (nodes s2 node) = Some j ->
  issued (trace (modifyCommand env node s))
  = [(session, "f " +:+ jobname j +:+ "," +:+ input)].
Proof.
  unfold modify_prompt. intros Hin Hsession Hjob. expose. rewrite Hin. simpl.
  rewrite Hsession. simpl. rewrite Hjob. simpl.
  repeat branch.
Qed.

Lemma modifyCommand_cancelled node (s s1 : Store W) :
  showInputBox env (modify_prompt env) s = (s1, Returns (Resolved None)) ->
  modifyCommand env node s = (s1, [Ev (ShowInputBox (modify_prompt env)) Completed], Normal tt).
Proof. unfold modify_prompt. intros Hin. expose. by rewrite Hin. Qed.

Lemma stopCommand_issues node (s s1 : Store W) session j :
  getSession env node s = (s1, Returns session) ->
  job (nodes s1 node) = Some j ->
  issued (trace (stopCommand env node s)) = [(session, "p " +:+ jobname j)].
Proof.
  intros Hsession Hjob. expose. rewrite Hsession. simpl. rewrite Hjob. simpl.
  repeat branch.
Qed.

(** [stopCommand] never shows an input box or a dialog. *)
Lemma stopCommand_no_prompt node (s : Store W) :
  filter is_prompt (trace (stopCommand env node s)) = [].
Proof. expose. repeat branch. Qed.

End Commands.

(** C6. For a job node whose job is named [jobname j]: when the input box
    returns the string [input], [modifyCommand] issues exactly the command
    "f <jobname>,<input>" through [issueSimple]; when the prompt is
    cancelled it issues nothing (it makes no further call at all);
    [stopCommand] issues exactly "p <jobname>" and shows no prompt. *)
Theorem modifyCommand_stopCommand_issue {W} (env : Env W) (node : NodeId)
    (s s1 s2 c c1 t t1 : Store W) (input : string) (session session' : Session)
    (j j' : IJob)
    (Hinput : showInputBox env (modify_prompt env) s = (s1, Returns (Resolved (Some input))))
    (Hsession : getSession env node s1 = (s2, Returns session))
    (Hjob : job (nodes s2 node) = Some j)
    (Hcancel : showInputBox env (modify_prompt env) c = (c1, Returns (Resolved None)))
    (Hsession' : getSession env node t = (t1, Returns session'))
    (Hjob' : job (nodes t1 node) = Some j') :
  issued (trace (modifyCommand env node s))
  = [(session, "f " +:+ jobname j +:+ "," +:+ input)]
  /\ modifyCommand env node c
     = (c1, [Ev (ShowInputBox (modify_prompt env)) Completed], Normal tt)
  /\ issued (trace (modifyCommand env node c)) = []
  /\ issued (trace (stopCommand env node t)) = [(session', "p " +:+ jobname j')]
  /\ filter is_prompt (trace (stopCommand env node t)) = [].
Proof.
  split; [by eapply modifyCommand_issues|].
  split; [by apply modifyCommand_cancelled|].
  split; [by rewrite (modifyCommand_cancelled env node c c1 Hcancel)|].
  split; [by eapply stopCommand_issues|].
  apply stopCommand_no_prompt.
Qed.

Lemma modifyCommand_stopCommand_issue_witness :
  issued (trace (modifyCommand Demo.env 1 answered)) = [(31, "f A,HELLO")]
  /\ modifyCommand Demo.env 1 dismissed
     = (dismissed, [Ev (ShowInputBox {| prompt := "Modify Command" |}) Completed], Normal tt)
  /\ issued (trace (modifyCommand Demo.env 1 dismissed)) = []
  /\ issued (trace (stopCommand Demo.env 1 answered)) = [(31, "p A")]
  /\ filter is_prompt (trace (stopCommand Demo.env 1 answered)) = [].
Proof.
  exact (modifyCommand_stopCommand_issue Demo.env 1
           answered answered answered dismissed dismissed answered answered
           "HELLO" 31 31 {| jobid := "1"; jobname := "A" |} {| jobid := "1"; jobname := "A" |}
           eq_refl eq_refl eq_refl eq_refl eq_refl eq_refl).
Defined.

(** C9. [modifyCommand] takes only the absent value for a cancellation: when
    the user submits the empty string, the command "f <jobname>," with
    nothing after the comma is issued through [issueSimple], whereas the
    absent value issues nothing. *)
Theorem modifyCommand_empty_input_issues {W} (env : Env W) (node : NodeId)
    (s s1 s2 c c1 : Store W) (session : Session) (j : IJob)
    (Hinput : showInputBox env (modify_prompt env) s = (s1, Returns (Resolved (Some ""))))
    (Hsession : getSession env node s1 = (s2, Returns session))
    (Hjob : job (nodes s2 node) = Some j)
    (Hcancel : showInputBox env (modify_prompt env) c = (c1, Returns (Resolved None))) :
  issued (trace (modifyCommand env node s)) = [(session, "f " +:+ jobname j +:+ ",")]
  /\ issued (trace (modifyCommand env node c)) = [].
Proof.
  split.
  - by rewrite (modifyCommand_issues env node s s1 s2 "" session j).
  - by rewrite (modifyCommand_cancelled env node c c1 Hcancel).
Qed.

Lemma modifyCommand_empty_input_issues_witness :
  issued (trace (modifyCommand Demo.env 1 submitted_empty)) = [(31, "f A,")]
  /\ issued (trace (modifyCommand Demo.env 1 dismissed)) = [].
Proof.
  exact (modifyCommand_empty_input_issues Demo.env 1
           submitted_empty submitted_empty submitted_empty dismissed dismissed
           31 {| jobid := "1"; jobname := "A" |}
           eq_refl eq_refl eq_refl eq_refl).
Defined.

(** ** downloadSpool *)

Section DownloadSpool.

Context {W : Type} (env : Env W).

Lemma downloadSpool_cancelled node (s s1 : Store W) :
  showOpenDialog env (spool_dialog env) s = (s1, Returns (Resolved None)) ->
  downloadSpool env node s
  = (s1, [Ev (ShowOpenDialog (spool_dialog env)) Completed], Normal tt).
Proof. unfold spool_dialog. intros Hdialog. expose. by rewrite Hdialog. Qed.

Lemma downloadSpool_requests node (s s1 s2 s3 : Store W) dir more p api j :
  showOpenDialog env (spool_dialog env) s = (s1, Returns (Resolved (Some (dir :: more)))) ->
  getProfile env node s1 = (s2, Returns p) ->
  getJesApi env p s2 = (s3, Returns api) ->
  job (nodes s3 node) = Some j ->
  downloads (trace (downloadSpool env node s))
  = [(api, {| parms_jobid := jobid j; parms_jobname := jobname j; outDir := fsPath dir |})].
Proof.
  unfold spool_dialog. intros Hdialog Hprofile Hapi Hjob. expose.
  rewrite Hdialog. simpl. rewrite Hprofile. simpl. rewrite Hapi. simpl.
  rewrite Hjob. simpl. repeat branch.
Qed.

End DownloadSpool.

(** C7. [downloadSpool]: if the folder picker returns the absent value, the
    handler makes no collaborator call after the dialog and ends normally;
    if it returns a folder, the handler makes exactly one
    [downloadSpoolContent] call, on the JES API of the job's profile, with
    [jobid] and [jobname] those of [job.job] and [outDir] the path of the
    selected folder. *)
Theorem downloadSpool_cancel_or_one_download {W} (env : Env W) (node : NodeId)
    (c c1 s s1 s2 s3 : Store W) (dir : Uri) (more : list Uri)
    (p : IProfileLoaded) (api : JesApi) (j : IJob)
    (Hcancel : showOpenDialog env (spool_dialog env) c = (c1, Returns (Resolved None)))
    (Hdialog : showOpenDialog env (spool_dialog env) s
               = (s1, Returns (Resolved (Some (dir :: more)))))
    (Hprofile : getProfile env node s1 = (s2, Returns p))
    (Hapi : getJesApi env p s2 = (s3, Returns api))
    (Hjob : job (nodes s3 node) = Some j) :
  downloadSpool env node c
  = (c1, [Ev (ShowOpenDialog (spool_dialog env)) Completed], Normal tt)
  /\ downloads (trace (downloadSpool env node s))
     = [(api, {| parms_jobid := jobid j; parms_jobname := jobname j; outDir := fsPath dir |})].
Proof.
  split.
  - by apply downloadSpool_cancelled.
  - by eapply downloadSpool_requests.
Qed.

Lemma downloadSpool_cancel_or_one_download_witness :
  downloadSpool Demo.env 1 no_folder
  = (no_folder,
     [Ev (ShowOpenDialog {| openLabel := "Select"; canSelectFolders := true;
                            canSelectFiles := false; canSelectMany := false |})
         Completed],
     Normal tt)
  /\ downloads (trace (downloadSpool Demo.env 1 answered))
     = [(121, {| parms_jobid := "1"; parms_jobname := "A"; outDir := "/tmp/spool" |})].
Proof.
  exact (downloadSpool_cancel_or_one_download Demo.env 1
           no_folder no_folder answered answered answered answered
           {| fsPath := "/tmp/spool" |} [] 21 121 {| jobid := "1"; jobname := "A" |}
           eq_refl eq_refl eq_refl eq_refl eq_refl).
Defined.

(** ** Cancelled prompts *)

(** C2, as stated, fails: in [setOwner] a cancelled input box is followed by
    the assignment of the absent value to [owner] and by a call of the tree
    provider's [refreshElement]. *)
Lemma cancel_untouched_fails_for_setOwner :
  cancels Demo.env (SetOwner 1) dismissed dismissed
  /\ owner (nodes dismissed 1) = Some "IBMUSER"
  /\ owner (nodes (store_after (handle Demo.env (SetOwner 1) dismissed)) 1) = None
  /\ trace (handle Demo.env (SetOwner 1) dismissed)
     = [Ev (ShowInputBox {| prompt := "Owner" |}) Completed;
        Ev (RefreshElement (Some 1)) Completed]
  /\ ~ untouched (handle Demo.env (SetOwner 1) dismissed) dismissed.
Proof.
  repeat split.
  intros [Hnodes _]. specialize (Hnodes 1). discriminate Hnodes.
Qed.

(** C2, amended. For every handler that shows a prompt or dialog, other than
    [setOwner] and [setPrefix] (that is, for [downloadSpool] and
    [modifyCommand]): if the user cancels it, the handler ends normally
    having made no call but the prompt itself; no property of any node is
    assigned and no API-facade, tree-provider or command-issuing call is
    made. *)
Theorem cancel_untouched_downloadSpool_modifyCommand {W} (env : Env W)
    (i : Invocation) (s s1 : Store W)
    (Hhandler : match i with SetOwner _ | SetPrefix _ => False | _ => True end)
    (Hcancel : cancels env i s s1) :
  untouched (handle env i s) s1
  /\ filter (fun ev => negb (is_prompt ev)) (trace (handle env i s)) = []
  /\ result (handle env i s) = Normal tt.
Proof.
  destruct i; try done; simpl in Hcancel; simpl handle.
  - rewrite (downloadSpool_cancelled env _ s s1 Hcancel).
    repeat split. by repeat constructor.
  - rewrite (modifyCommand_cancelled env _ s s1 Hcancel).
    repeat split. by repeat constructor.
Qed.

Lemma cancel_untouched_downloadSpool_modifyCommand_witness :
  untouched (handle Demo.env (DownloadSpool 1) no_folder) no_folder
  /\ filter (fun ev => negb (is_prompt ev)) (trace (handle Demo.env (DownloadSpool 1) no_folder)) = []
  /\ result (handle Demo.env (DownloadSpool 1) no_folder) = Normal tt.
Proof.
  exact (cancel_untouched_downloadSpool_modifyCommand Demo.env (DownloadSpool 1)
           no_folder no_folder I eq_refl).
Defined.

(** ** getSpoolContent *)

Section GetSpoolContent.

Context {W : Type} (env : Env W).

Lemma getSpoolContent_unresolved session spool ts (s s1 s2 : Store W) e :
  loadNamedProfile env session s = (s1, Throws e) ->
  errorHandling env e (Some session) (message e) s1 = (s2, Returns (Resolved tt)) ->
  getSpoolContent env session spool ts s
  = (s2,
     [Ev (LoadNamedProfile session) (Raised e);
      Ev (ErrorHandling e (Some session) (message e)) Completed],
     Normal tt).
Proof. intros Hload Hreport. expose. rewrite Hload. simpl. by rewrite Hreport. Qed.

Lemma getSpoolContent_shows_only_valid session spool ts (s : Store W) :
  shown (trace (getSpoolContent env session spool ts s)) ≠ [] ->
  exists s1 p s2,
    loadNamedProfile env session s = (s1, Returns p)
    /\ checkCurrentProfile env p s1 = (s2, Returns (Resolved tt))
    /\ (validProfile s2 = VALID \/ validProfile s2 = UNVERIFIED).
Proof.
  expose.
  destruct (loadNamedProfile env session s) as [s1 [p|e]] eqn:Hload; simpl.
  - destruct (checkCurrentProfile env p s1) as [s2 [[[]|e]|e]] eqn:Hcheck;
      simpl; try done.
    destruct (validProfile s2) eqn:Hvalid; simpl; try done;
      intros _; exists s1, p, s2; eauto.
  - repeat branch.
Qed.

Lemma getSpoolContent_shows session spool ts (s s1 s2 s3 : Store W) p uri :
  loadNamedProfile env session s = (s1, Returns p) ->
  checkCurrentProfile env p s1 = (s2, Returns (Resolved tt)) ->
  validProfile s2 = VALID \/ validProfile s2 = UNVERIFIED ->
  toUniqueJobFileUri env session spool (number_toString ts) s2 = (s3, Returns uri) ->
  shown (trace (getSpoolContent env session spool ts s)) = [OfUri uri].
Proof.
  intros Hload Hcheck Hvalid Huri. expose. rewrite Hload. simpl.
  rewrite Hcheck. simpl.
  assert (ValidProfileEnum_eqb (validProfile s2) VALID
          || ValidProfileEnum_eqb (validProfile s2) UNVERIFIED = true) as ->
    by (by destruct Hvalid as [-> | ->]).
  rewrite Huri. simpl. repeat branch.
Qed.

End GetSpoolContent.

(** C3. [getSpoolContent] shows a text document only when the named profile
    was loaded and, after [checkCurrentProfile], the validity is VALID or
    UNVERIFIED (and then it shows the document of the URI derived from the
    session, the spool file and the time stamp); when [loadNamedProfile]
    fails, the handler reports the error to the error reporter and returns,
    with no document shown and no other collaborator called. *)
Theorem getSpoolContent_valid_or_reported {W} (env : Env W)
    (session : string) (spool : IJobFile) (refreshTimestamp : Z)
    (f f1 f2 : Store W) (e : JsError)
    (Hload : loadNamedProfile env session f = (f1, Throws e))
    (Hreport : errorHandling env e (Some session) (message e) f1
               = (f2, Returns (Resolved tt))) :
  getSpoolContent env session spool refreshTimestamp f
  = (f2,
     [Ev (LoadNamedProfile session) (Raised e);
      Ev (ErrorHandling e (Some session) (message e)) Completed],
     Normal tt)
  /\ (forall s : Store W,
        shown (trace (getSpoolContent env session spool refreshTimestamp s)) ≠ [] ->
        exists s1 p s2,
          loadNamedProfile env session s = (s1, Returns p)
          /\ checkCurrentProfile env p s1 = (s2, Returns (Resolved tt))
          /\ (validProfile s2 = VALID \/ validProfile s2 = UNVERIFIED))
  /\ (forall (s s1 s2 s3 : Store W) p uri,
        loadNamedProfile env session s = (s1, Returns p) ->
        checkCurrentProfile env p s1 = (s2, Returns (Resolved tt)) ->
        validProfile s2 = VALID \/ validProfile s2 = UNVERIFIED ->
        toUniqueJobFileUri env session spool (number_toString refreshTimestamp) s2
        = (s3, Returns uri) ->
        shown (trace (getSpoolContent env session spool refreshTimestamp s)) = [OfUri uri]).
Proof.
  split; [by eapply getSpoolContent_unresolved|].
  split.
  - apply getSpoolContent_shows_only_valid.
  - intros. by eapply getSpoolContent_shows.
Qed.

Lemma getSpoolContent_valid_or_reported_witness :
  getSpoolContent Demo.env "nope" 5 1700000000000 unknown_profile
  = (unknown_profile,
     [Ev (LoadNamedProfile "nope") (Raised Demo.boom);
      Ev (ErrorHandling Demo.boom (Some "nope") "boom") Completed],
     Normal tt)
  /\ shown (trace (getSpoolContent Demo.env "nope" 5 1700000000000 answered))
     = [OfUri {| fsPath := "nope/1700000000000" |}].
Proof.
  destruct (getSpoolContent_valid_or_reported Demo.env "nope" 5 1700000000000
              unknown_profile unknown_profile unknown_profile Demo.boom
              eq_refl eq_refl) as (Hreported & _ & Hshows).
  split; [exact Hreported|].
  exact (Hshows answered _ _ _ _ _ eq_refl eq_refl (or_introl eq_refl) eq_refl).
Defined.

(** ** deleteCommand *)

Section DeleteCommand.

Context {W : Type} (env : Env W).





End DeleteCommand.

(** C4. [deleteCommand]: when the job nodes of the tree view's selection are
    A(1) and B(2), [provider.delete] is called exactly twice, on these two
    nodes, and one notification is shown, which lists both "jobname(jobid)"
    strings; when the selection holds no job node and the job C(3) is passed,
    [provider.delete] is called exactly once, on it, and the one notification
    names C(3) only; in both cases "zowe.jobs.refreshAllJobs" is broadcast
    exactly once, as the last call. *)
Theorem deleteCommand_two_selected_or_single {W} (env : Env W)
    (job0 : option NodeId) (a b c : NodeId)
    (s s1 s2 s3 s4 t t1 t2 t3 : Store W) (view view' : TreeView)
    (pr pr' pr'' : promise unit)
    (Hview : getTreeView env s = (s1, Returns view))
    (Hselected : filter_jobs s1 (selection view) = [a; b])
    (Hdelete_a : provider_delete env a s1 = (s2, Returns (Resolved tt)))
    (Hjob_a : job (nodes s2 a) = Some {| jobid := "1"; jobname := "A" |})
    (Hdelete_b : provider_delete env b s2 = (s3, Returns (Resolved tt)))
    (Hjob_b : job (nodes s3 b) = Some {| jobid := "2"; jobname := "B" |})
    (Hnotify : showInformationMessage env
                 (localize env "deleteMulti.job" "The following jobs were deleted:"
                  +:+ " B(2), A(1)") s3
               = (s4, Returns pr))
    (Hview' : getTreeView env t = (t1, Returns view'))
    (Hnone : filter_jobs t1 (selection view') = [])
    (Hdelete_c : provider_delete env c t1 = (t2, Returns pr'))
    (Hjob_c : job (nodes t2 c) = Some {| jobid := "3"; jobname := "C" |})
    (Hnotify' : showInformationMessage env
                  (localize env "deleteCommand.job" "Job " +:+ "C(3)"
                   +:+ localize env "deleteCommand.delete" " deleted") t2
                = (t3, Returns pr'')) :
  map call (trace (deleteCommand env job0 s))
  = [GetTreeView; Delete a; Delete b;
     ShowInformationMessage
       (localize env "deleteMulti.job" "The following jobs were deleted:"
        +:+ " B(2), A(1)");
     ExecuteCommand "zowe.jobs.refreshAllJobs"]
  /\ map call (trace (deleteCommand env (Some c) t))
     = [GetTreeView; Delete c;
        ShowInformationMessage
          (localize env "deleteCommand.job" "Job " +:+ "C(3)"
           +:+ localize env "deleteCommand.delete" " deleted");
        ExecuteCommand "zowe.jobs.refreshAllJobs"].
Proof.
  split.
  - expose. rewrite Hview. simpl. rewrite Hselected. simpl. expose.
    rewrite Hdelete_a. simpl. rewrite Hjob_a. simpl.
    rewrite Hdelete_b. simpl. rewrite Hjob_b. simpl.
    match goal with
    | |- context [showInformationMessage env ?m s3] =>
        change m with (localize env "deleteMulti.job" "The following jobs were deleted:"
                       +:+ " B(2), A(1)")
    end.
    rewrite Hnotify. destruct pr as [[]|?], job0; simpl; repeat branch.
  - expose. rewrite Hview'. simpl. rewrite Hnone. simpl.
    rewrite Hdelete_c. destruct pr' as [[]|?]; simpl; rewrite Hjob_c; simpl;
      match goal with
      | |- context [showInformationMessage env ?m t2] =>
          change m with (localize env "deleteCommand.job" "Job " +:+ "C(3)"
                         +:+ localize env "deleteCommand.delete" " deleted")
      end;
      rewrite Hnotify'; destruct pr'' as [[]|?]; simpl; repeat branch.
Qed.

Lemma deleteCommand_two_selected_or_single_witness :
  map call (trace (deleteCommand Demo.env None two_selected))
  = [GetTreeView; Delete 1; Delete 2;
     ShowInformationMessage "The following jobs were deleted: B(2), A(1)";
     ExecuteCommand "zowe.jobs.refreshAllJobs"]
  /\ map call (trace (deleteCommand Demo.env (Some 3) session_selected))
     = [GetTreeView; Delete 3;
        ShowInformationMessage "Job C(3) deleted";
        ExecuteCommand "zowe.jobs.refreshAllJobs"].
Proof.
  exact (deleteCommand_two_selected_or_single Demo.env None 1 2 3
           two_selected two_selected two_selected two_selected two_selected
           session_selected session_selected session_selected session_selected
           {| selection := [10; 1; 2] |} {| selection := [10] |}
           (Resolved tt) (Resolved tt) (Resolved tt)
           eq_refl eq_refl eq_refl eq_refl eq_refl eq_refl eq_refl
           eq_refl eq_refl eq_refl eq_refl eq_refl).
Defined.




(** ** focusOnJob *)

Section FocusOnJob.

Context {W : Type} (env : Env W).

Lemma added_app (t1 t2 : Trace) : added (t1 ++ t2) = added t1 ++ added t2.
Proof.
  induction t1 as [|[c st] t1 IH]; [done|].
  destruct c; simpl; by rewrite ?IH.
Qed.

(** No child carries the job id: the search comes back empty. *)
Lemma find_jobid_none (s : Store W) jobId jobs :
  Forall (fun n => exists j, job (nodes s n) = Some j /\ jobid j ≠ jobId) jobs ->
  find_jobid s jobId jobs = Normal None.
Proof.
  induction 1 as [|n rest (j & Hjob & Hid) _ IH]; [done|].
  simpl. rewrite Hjob. by apply String.eqb_neq in Hid as ->.
Qed.

(** The search stops at the first child that carries the job id. *)
Lemma find_jobid_first (s : Store W) jobId before target after j :
  Forall (fun n => exists j, job (nodes s n) = Some j /\ jobid j ≠ jobId) before ->
  job (nodes s target) = Some j ->
  jobid j = jobId ->
  find_jobid s jobId (before ++ target :: after) = Normal (Some target).
Proof.
  intros Hbefore Hjob Hid.
  induction Hbefore as [|n rest (j' & Hjob' & Hid') _ IH]; simpl.
  - rewrite Hjob. by apply String.eqb_eq in Hid as ->.
  - rewrite Hjob'. by apply String.eqb_neq in Hid' as ->.
Qed.

(** [addSession] is called when, and only when, the first look-up finds no
    session node; whatever happens afterwards, it is not called again. *)
Lemma focusOnJob_added sessionName jobId (s : Store W) :
  added (trace (focusOnJob env sessionName jobId s))
  = match session_by_trimmed_label sessionName s with
    | Some _ => []
    | None => [sessionName]
    end.
Proof.
  unfold session_by_trimmed_label.
  destruct (focusOnJob env sessionName jobId s) as [[sf t] c] eqn:Hrun.
  expose. simpl in Hrun.
  destruct (List.find _ (mSessionNodes s)) as [sn|]; simpl in Hrun.
  - repeat step_in Hrun; by simplify_eq/=.
  - repeat step_in Hrun; by simplify_eq/=.
Qed.

End FocusOnJob.

(** C5, as stated, fails.  With the session name " zosmf" no session node has
    the trimmed label "zosmf", [addSession] is called once and creates node
    10, labelled "zosmf"; the second look-up compares the labels with the
    name as given, finds nothing, and the selection does not proceed:
    [refreshElement] is called on the absent value and the handler throws.
    And with a child that carries no job among the children fetched, none of
    which has the job id "9", the handler throws instead of returning. *)
Lemma focusOnJob_selection_fails :
  session_by_trimmed_label " zosmf" session_missing = None
  /\ focusOnJob Demo.env " zosmf" "2" session_missing
     = (session_created,
        [Ev (AddSession " zosmf") Completed; Ev (RefreshElement None) Completed],
        Throw TypeError)
  /\ label (nodes session_created 10) = "zosmf"
  /\ selected (trace (focusOnJob Demo.env " zosmf" "2" session_missing)) = []
  /\ session_by_trimmed_label "zosmf" odd_child = Some 10
  /\ Forall (fun n => forall j, job (nodes odd_child n) = Some j -> jobid j ≠ "9")
            [1; 11; 2]
  /\ focusOnJob Faulty.env "zosmf" "9" odd_child
     = (update_node 10 (put_searchId (Some "9")) odd_child,
        [Ev (RefreshElement (Some 10)) Completed; Ev (GetChildren 10) Completed],
        Throw TypeError).
Proof.
  repeat split.
  repeat constructor; intros j Hjob; simpl in Hjob; by simplify_eq.
Qed.

(** C5, amended. [focusOnJob]: if no node of [mSessionNodes] has a trimmed
    label equal to the trimmed session name, [addSession] is called exactly
    once, and, when the node it creates is found under the session name as
    given and the children up to the match carry a job, with that session
    node the selection proceeds: the node is
    refreshed, its [searchId] is set to the job id, its children are fetched
    and the first child with that job id is selected with [setItem]; if a
    node with that label exists, [addSession] is never called; and if every
    child carries a job and none has the job id, the handler returns after
    fetching the children, having called nothing further. *)
Theorem focusOnJob_session_then_selection {W} (env : Env W)
    (sessionName jobId : string) (s s1 s2 s3 : Store W) (sn : NodeId)
    (jobs : list NodeId) (pr : promise unit)
    (Hsession :
       (session_by_trimmed_label sessionName s = Some sn /\ s1 = s)
       \/ (session_by_trimmed_label sessionName s = None
           /\ addSession env sessionName s = (s1, Returns (Resolved tt))
           /\ session_by_label sessionName s1 = Some sn))
    (Hrefresh : refreshElement env (Some sn) s1 = (s2, Returns pr))
    (Hchildren : getChildren env sn (update_node sn (put_searchId (Some jobId)) s2)
                 = (s3, Returns (Resolved jobs))) :
  let reached :=
    match session_by_trimmed_label sessionName s with
    | Some _ => []
    | None => [Ev (AddSession sessionName) Completed]
    end
    ++ [Ev (RefreshElement (Some sn)) (dropped_status (Returns pr));
        Ev (GetChildren sn) Completed] in
  (forall x : Store W,
     added (trace (focusOnJob env sessionName jobId x))
     = match session_by_trimmed_label sessionName x with
       | Some _ => []
       | None => [sessionName]
       end)
  /\ searchId (nodes (update_node sn (put_searchId (Some jobId)) s2) sn) = Some jobId
  /\ (forall before target after j view (s4 s5 : Store W) (pr' : promise unit),
        jobs = before ++ target :: after ->
        Forall (fun n => exists j, job (nodes s3 n) = Some j /\ jobid j ≠ jobId) before ->
        job (nodes s3 target) = Some j ->
        jobid j = jobId ->
        getTreeView env s3 = (s4, Returns view) ->
        setItem env view target s4 = (s5, Returns pr') ->
        focusOnJob env sessionName jobId s
        = (s5,
           reached ++ [Ev GetTreeView Completed;
                       Ev (SetItem view target) (dropped_status (Returns pr'))],
           Normal tt))
  /\ (Forall (fun n => exists j, job (nodes s3 n) = Some j /\ jobid j ≠ jobId) jobs ->
      focusOnJob env sessionName jobId s = (s3, reached, Normal tt)).
Proof.
  intros reached. subst reached.
  split; [apply focusOnJob_added|].
  split; [by rewrite update_node_same|].
  unfold session_by_trimmed_label, session_by_label in *.
  split.
  - intros before target after j view s4 s5 pr' -> Hbefore Hjob Hid Hview Hset.
    pose proof (find_jobid_first s3 jobId before target after j Hbefore Hjob Hid) as Hfind.
    expose. simpl.
    destruct Hsession as [[-> ->] | (-> & Hadd & Hcreated)]; simpl.
    + rewrite Hrefresh. destruct pr as [[]|?]; simpl; rewrite Hchildren; simpl;
        rewrite Hfind; simpl; rewrite Hview; simpl; rewrite Hset;
        by destruct pr' as [[]|?].
    + rewrite Hadd. simpl. rewrite Hcreated. simpl.
      rewrite Hrefresh. destruct pr as [[]|?]; simpl; rewrite Hchildren; simpl;
        rewrite Hfind; simpl; rewrite Hview; simpl; rewrite Hset;
        by destruct pr' as [[]|?].
  - intros Hmissing.
    pose proof (find_jobid_none s3 jobId jobs Hmissing) as Hfind.
    expose. simpl.
    destruct Hsession as [[-> ->] | (-> & Hadd & Hcreated)]; simpl.
    + rewrite Hrefresh. destruct pr as [[]|?]; simpl; rewrite Hchildren; simpl;
        by rewrite Hfind.
    + rewrite Hadd. simpl. rewrite Hcreated. simpl.
      rewrite Hrefresh. destruct pr as [[]|?]; simpl; rewrite Hchildren; simpl;
        by rewrite Hfind.
Qed.

Lemma focusOnJob_session_then_selection_witness :
  focusOnJob Demo.env "zosmf" "2" session_missing
  = (update_node 10 (put_searchId (Some "2")) session_created,
     [Ev (AddSession "zosmf") Completed;
      Ev (RefreshElement (Some 10)) Completed;
      Ev (GetChildren 10) Completed;
      Ev GetTreeView Completed;
      Ev (SetItem {| selection := [] |} 2) Completed],
     Normal tt)
  /\ focusOnJob Demo.env "zosmf" "9" answered
     = (update_node 10 (put_searchId (Some "9")) answered,
        [Ev (RefreshElement (Some 10)) Completed; Ev (GetChildren 10) Completed],
        Normal tt).
Proof.
  split.
  - destruct (focusOnJob_session_then_selection Demo.env "zosmf" "2"
                session_missing session_created session_created
                (update_node 10 (put_searchId (Some "2")) session_created)
                10 [1; 2; 3] (Resolved tt)
                (or_intror (conj eq_refl (conj eq_refl eq_refl))) eq_refl eq_refl)
      as (_ & _ & Hfound & _).
    apply (Hfound [1] 2 [3] {| jobid := "2"; jobname := "B" |} {| selection := [] |}
             (update_node 10 (put_searchId (Some "2")) session_created)
             (update_node 10 (put_searchId (Some "2")) session_created)
             (Resolved tt)); try reflexivity.
    constructor; [|constructor]. by exists {| jobid := "1"; jobname := "A" |}.
  - destruct (focusOnJob_session_then_selection Demo.env "zosmf" "9"
                answered answered answered
                (update_node 10 (put_searchId (Some "9")) answered)
                10 [1; 2; 3] (Resolved tt)
                (or_introl (conj eq_refl eq_refl)) eq_refl eq_refl)
      as (_ & _ & _ & Hmissing).
    apply Hmissing.
    repeat constructor.
    + by exists {| jobid := "1"; jobname := "A" |}.
    + by exists {| jobid := "2"; jobname := "B" |}.
    + by exists {| jobid := "3"; jobname := "C" |}.
Defined.

(** The second look-up does not trim: when the session name carries white
    space that the label of the created node does not, no session node is
    found after [addSession], [refreshElement] is called on the absent value
    and the assignment to [searchId] throws. *)
Example focusOnJob_padded_session_name :
  focusOnJob Demo.env " zosmf" "2" session_missing
  = (session_created,
     [Ev (AddSession " zosmf") Completed; Ev (RefreshElement None) Completed],
     Throw TypeError).
Proof. reflexivity. Qed.

(** ** Errors raised by collaborators *)

(** C1, as stated, fails: [setOwner] has no [try] block; when the input box
    raises an error the reporter is not called and the error leaves the
    handler. *)
Lemma setOwner_error_not_reported :
  existsb raised_in (trace (handle Demo.env (SetOwner 1) input_fails)) = true
  /\ reports (trace (handle Demo.env (SetOwner 1) input_fails)) = 0
  /\ result (handle Demo.env (SetOwner 1) input_fails) = Throw Demo.boom
  /\ ~ reported_once_and_contained (handle Demo.env (SetOwner 1) input_fails).
Proof.
  repeat split. intros [Hreports _]. discriminate Hreports.
Qed.

Section Errors.

Context {W : Type} (env : Env W).

Lemma nothing_caught (i : Invocation) (t : Trace) :
  (forall c, caught i c = false) -> existsb (raised_caught i) t = false.
Proof.
  intros Hnone. induction t as [|ev t IH]; [done|].
  simpl. unfold raised_caught at 1. by rewrite Hnone, andb_false_r.
Qed.

End Errors.

(** C1, amended. For [downloadSpool], [downloadJcl], [modifyCommand] and
    [stopCommand] and every error that a collaborator call raises into the
    handler (thrown by the call, or by the promise the handler awaits), and
    likewise for the [loadNamedProfile] and [showTextDocument] calls of
    [getSpoolContent] and the [addSession] and [refreshElement] calls of
    [focusOnJob]: the handler makes exactly one call to the error reporter
    and, the reporter returning, no exception leaves the handler. *)
Theorem caught_error_reported_once {W} (env : Env W) (i : Invocation) (s : Store W)
    (Hraised : existsb (raised_caught i) (trace (handle env i s)) = true)
    (Hreporter : reporter_returned (trace (handle env i s)) = true) :
  reports (trace (handle env i s)) = 1
  /\ result (handle env i s) = Normal tt.
Proof.
  destruct i as [n|session spool ts|n|n|n|name id|n|n|n|n|n];
    try (rewrite nothing_caught in Hraised by done; discriminate Hraised).
  all: destruct (handle env _ s) as [[sf t] c] eqn:Hrun.
  all: expose; simpl in Hrun.
  all: repeat step_in Hrun; simplify_eq/=; try done.
  all: repeat match goal with x : unit |- _ => destruct x end; by split.
Qed.

Lemma caught_error_reported_once_witness :
  trace (handle Demo.env (StopCommand 1) command_refused)
  = [Ev (GetSession 1) Completed;
     Ev (IssueSimple 31 "p A") (Raised Demo.boom);
     Ev (ErrorHandling Demo.boom None "boom") Completed]
  /\ reports (trace (handle Demo.env (StopCommand 1) command_refused)) = 1
  /\ result (handle Demo.env (StopCommand 1) command_refused) = Normal tt.
Proof.
  split; [reflexivity|].
  exact (caught_error_reported_once Demo.env (StopCommand 1) command_refused
           eq_refl eq_refl).
Defined.

(** ** Further properties of the handlers *)

(** [refreshJobsServer]: the validity is read as soon as the provider's
    profile check has been started, without awaiting it.  If the check does
    not throw, the node is refreshed, once and awaited, exactly when the
    validity read then is not INVALID; the outcome of the check's promise
    plays no part, and an INVALID profile ends the handler after the check. *)
Theorem refreshJobsServer_gate {W} (env : Env W) (node : NodeId)
    (s s1 : Store W) (p : promise unit)
    (Hcheck : provider_checkCurrentProfile env node s = (s1, Returns p)) :
  (validProfile s1 = INVALID ->
   refreshJobsServer env node s
   = (s1, [Ev (ProviderCheckCurrentProfile node) (dropped_status (Returns p))], Normal tt))
  /\ (validProfile s1 ≠ INVALID ->
      forall (s2 : Store W) (o : outcome (promise unit)),
        refreshElement env (Some node) s1 = (s2, o) ->
        refreshJobsServer env node s
        = (s2,
           [Ev (ProviderCheckCurrentProfile node) (dropped_status (Returns p));
            Ev (RefreshElement (Some node)) (awaited_status o)],
           awaited_result o)).
Proof.
  split.
  - intros Hinvalid. expose. rewrite Hcheck.
    destruct p as [[]|?]; simpl; by rewrite Hinvalid.
  - intros Hvalid s2 o Hrefresh. expose. rewrite Hcheck.
    destruct p as [[]|?]; simpl; destruct (validProfile s1); try done; simpl;
      rewrite Hrefresh; by destruct o as [[[]|?]|?].
Qed.

Lemma refreshJobsServer_gate_witness :
  refreshJobsServer Faulty.env 1 check_rejects
  = (check_rejects,
     [Ev (ProviderCheckCurrentProfile 1) (Unhandled Demo.boom);
      Ev (RefreshElement (Some 1)) Completed],
     Normal tt).
Proof.
  destruct (refreshJobsServer_gate Faulty.env 1 check_rejects check_rejects
              (Rejected Demo.boom) eq_refl) as [_ Hvalid].
  by apply (Hvalid ltac:(discriminate) check_rejects (Returns (Resolved tt))).
Defined.

(** [downloadJcl]: when every call succeeds, the handler fetches the JCL of
    [job.job] from the JES API of the node's profile, opens a document with
    language "jcl" whose content is exactly the text fetched, and shows that
    document; it makes these five calls and no other. *)
Theorem downloadJcl_shows_fetched_jcl {W} (env : Env W) (node : NodeId)
    (s s1 s2 s3 s4 s5 : Store W) (p : IProfileLoaded) (api : JesApi)
    (jcl : string) (doc : TextDocument)
    (Hprofile : getProfile env node s = (s1, Returns p))
    (Hapi : getJesApi env p s1 = (s2, Returns api))
    (Hjcl : getJclForJob env api (job (nodes s2 node)) s2 = (s3, Returns (Resolved jcl)))
    (Hopen : openTextDocument env "jcl" jcl s3 = (s4, Returns (Resolved doc)))
    (Hshow : showTextDocument env (OfDocument doc) s4 = (s5, Returns (Resolved tt))) :
  downloadJcl env node s
  = (s5,
     [Ev (GetProfile node) Completed;
      Ev (GetJesApi p) Completed;
      Ev (GetJclForJob api (job (nodes s2 node))) Completed;
      Ev (OpenTextDocument "jcl" jcl) Completed;
      Ev (ShowTextDocument (OfDocument doc)) Completed],
     Normal tt).
Proof.
  expose. rewrite Hprofile. simpl. rewrite Hapi. simpl. rewrite Hjcl. simpl.
  rewrite Hopen. simpl. by rewrite Hshow.
Qed.

Lemma downloadJcl_shows_fetched_jcl_witness :
  downloadJcl Faulty.env 1 all_well
  = (all_well,
     [Ev (GetProfile 1) Completed;
      Ev (GetJesApi 21) Completed;
      Ev (GetJclForJob 121 (Some {| jobid := "1"; jobname := "A" |})) Completed;
      Ev (OpenTextDocument "jcl" "//JOB") Completed;
      Ev (ShowTextDocument (OfDocument 40)) Completed],
     Normal tt).
Proof.
  exact (downloadJcl_shows_fetched_jcl Faulty.env 1
           all_well all_well all_well all_well all_well all_well
           21 121 "//JOB" 40 eq_refl eq_refl eq_refl eq_refl eq_refl).
Defined.

(** [downloadSpool] on a node that carries no job, or when the dialog hands
    back an empty array: the profile and the JES API have been looked up
    already; building the argument of the download throws, the error goes to
    the reporter, no download is requested and the handler returns. *)
Theorem downloadSpool_incomplete_reported {W} (env : Env W) (node : NodeId)
    (s s1 s2 s3 s4 : Store W) (dirs : list Uri) (p : IProfileLoaded) (api : JesApi)
    (Hdialog : showOpenDialog env (spool_dialog env) s = (s1, Returns (Resolved (Some dirs))))
    (Hprofile : getProfile env node s1 = (s2, Returns p))
    (Hapi : getJesApi env p s2 = (s3, Returns api))
    (Hincomplete : job (nodes s3 node) = None \/ dirs = [])
    (Hreport : errorHandling env TypeError None (message TypeError) s3
               = (s4, Returns (Resolved tt))) :
  downloadSpool env node s
  = (s4,
     [Ev (ShowOpenDialog (spool_dialog env)) Completed;
      Ev (GetProfile node) Completed;
      Ev (GetJesApi p) Completed;
      Ev (ErrorHandling TypeError None (message TypeError)) Completed],
     Normal tt).
Proof.
  unfold spool_dialog in *. simpl in Hreport. expose. rewrite Hdialog. simpl.
  rewrite Hprofile. simpl. rewrite Hapi. simpl.
  destruct Hincomplete as [Hjob | ->].
  - rewrite Hjob. simpl. by rewrite Hreport.
  - destruct (job (nodes s3 node)); simpl; by rewrite Hreport.
Qed.

Lemma downloadSpool_incomplete_reported_witness :
  downloadSpool Faulty.env 10 all_well
  = (all_well,
     [Ev (ShowOpenDialog {| openLabel := "Select"; canSelectFolders := true;
                            canSelectFiles := false; canSelectMany := false |})
         Completed;
      Ev (GetProfile 10) Completed;
      Ev (GetJesApi 30) Completed;
      Ev (ErrorHandling TypeError None "Cannot read properties of undefined") Completed],
     Normal tt).
Proof.
  exact (downloadSpool_incomplete_reported Faulty.env 10
           all_well all_well all_well all_well all_well
           [{| fsPath := "/tmp/spool" |}] 30 130
           eq_refl eq_refl eq_refl (or_introl eq_refl) eq_refl).
Defined.

(** [downloadSpool] does not await the download: when the promise of
    [downloadSpoolContent] rejects, the rejection is left unhandled, the
    reporter is not called and the handler ends normally. *)
Theorem downloadSpool_rejection_unreported {W} (env : Env W) (node : NodeId)
    (s s1 s2 s3 s4 : Store W) (dir : Uri) (more : list Uri)
    (p : IProfileLoaded) (api : JesApi) (j : IJob) (e : JsError)
    (Hdialog : showOpenDialog env (spool_dialog env) s
               = (s1, Returns (Resolved (Some (dir :: more)))))
    (Hprofile : getProfile env node s1 = (s2, Returns p))
    (Hapi : getJesApi env p s2 = (s3, Returns api))
    (Hjob : job (nodes s3 node) = Some j)
    (Hdownload : downloadSpoolContent env api
                   {| parms_jobid := jobid j; parms_jobname := jobname j;
                      outDir := fsPath dir |} s3
                 = (s4, Returns (Rejected e))) :
  downloadSpool env node s
  = (s4,
     [Ev (ShowOpenDialog (spool_dialog env)) Completed;
      Ev (GetProfile node) Completed;
      Ev (GetJesApi p) Completed;
      Ev (DownloadSpoolContent api
            {| parms_jobid := jobid j; parms_jobname := jobname j;
               outDir := fsPath dir |})
         (Unhandled e)],
     Normal tt)
  /\ reports (trace (downloadSpool env node s)) = 0.
Proof.
  assert (downloadSpool env node s
          = (s4,
             [Ev (ShowOpenDialog (spool_dialog env)) Completed;
              Ev (GetProfile node) Completed;
              Ev (GetJesApi p) Completed;
              Ev (DownloadSpoolContent api
                    {| parms_jobid := jobid j; parms_jobname := jobname j;
                       outDir := fsPath dir |})
                 (Unhandled e)],
             Normal tt)) as Hrun.
  { unfold spool_dialog in *. expose. rewrite Hdialog. simpl.
    rewrite Hprofile. simpl. rewrite Hapi. simpl. rewrite Hjob. simpl.
    by rewrite Hdownload. }
  by rewrite Hrun.
Qed.

Lemma downloadSpool_rejection_unreported_witness :
  result (downloadSpool Faulty.env 1 download_rejects) = Normal tt
  /\ reports (trace (downloadSpool Faulty.env 1 download_rejects)) = 0.
Proof.
  destruct (downloadSpool_rejection_unreported Faulty.env 1
              download_rejects download_rejects download_rejects download_rejects
              download_rejects {| fsPath := "/tmp/spool" |} [] 21 121
              {| jobid := "1"; jobname := "A" |} Demo.boom
              eq_refl eq_refl eq_refl eq_refl eq_refl) as [Hrun Hreports].
  split; [by rewrite Hrun | exact Hreports].
Defined.

(** [stopCommand], the session and the job name at hand: when [issueSimple]
    resolves, one notification shows the localized "Command response: "
    followed by the response text, and nothing is reported; when it raises
    an error, no notification is shown and that error goes to the reporter
    with no label and its own message. *)
Theorem stopCommand_response_or_report {W} (env : Env W) (node : NodeId)
    (s s1 s2 : Store W) (session : Session) (j : IJob)
    (o : outcome (promise IConsoleResponse))
    (Hsession : getSession env node s = (s1, Returns session))
    (Hjob : job (nodes s1 node) = Some j)
    (Hissue : issueSimple env session ("p " +:+ jobname j) s1 = (s2, o)) :
  (forall (r : IConsoleResponse) (s3 : Store W) (pr : promise unit),
     o = Returns (Resolved r) ->
     showInformationMessage env
       (localize env "stopCommand.response" "Command response: " +:+ commandResponse r) s2
     = (s3, Returns pr) ->
     stopCommand env node s
     = (s3,
        [Ev (GetSession node) Completed;
         Ev (IssueSimple session ("p " +:+ jobname j)) Completed;
         Ev (ShowInformationMessage
               (localize env "stopCommand.response" "Command response: "
                +:+ commandResponse r))
            (dropped_status (Returns pr))],
        Normal tt))
  /\ (forall (e : JsError) (s3 : Store W),
        awaited_status o = Raised e ->
        errorHandling env e None (message e) s2 = (s3, Returns (Resolved tt)) ->
        stopCommand env node s
        = (s3,
           [Ev (GetSession node) Completed;
            Ev (IssueSimple session ("p " +:+ jobname j)) (Raised e);
            Ev (ErrorHandling e None (message e)) Completed],
           Normal tt)).
Proof.
  split.
  - intros r s3 pr -> Hnotify. expose. rewrite Hsession. simpl. rewrite Hjob. simpl.
    rewrite Hissue. simpl. rewrite Hnotify. by destruct pr as [[]|?].
  - intros e s3 Hraised Hreport. expose. rewrite Hsession. simpl. rewrite Hjob. simpl.
    rewrite Hissue. destruct o as [[r|e']|e']; simplify_eq/=; by rewrite Hreport.
Qed.

Lemma stopCommand_response_or_report_witness :
  stopCommand Faulty.env 1 all_well
  = (all_well,
     [Ev (GetSession 1) Completed;
      Ev (IssueSimple 31 "p A") Completed;
      Ev (ShowInformationMessage "Command response: OK") Completed],
     Normal tt)
  /\ stopCommand Faulty.env 1 issue_rejects
     = (issue_rejects,
        [Ev (GetSession 1) Completed;
         Ev (IssueSimple 31 "p A") (Raised Demo.boom);
         Ev (ErrorHandling Demo.boom None "boom") Completed],
        Normal tt).
Proof.
  split.
  - destruct (stopCommand_response_or_report Faulty.env 1 all_well all_well all_well
                31 {| jobid := "1"; jobname := "A" |}
                (Returns (Resolved {| commandResponse := "OK" |}))
                eq_refl eq_refl eq_refl) as [Hok _].
    exact (Hok {| commandResponse := "OK" |} all_well (Resolved tt) eq_refl eq_refl).
  - destruct (stopCommand_response_or_report Faulty.env 1
                issue_rejects issue_rejects issue_rejects
                31 {| jobid := "1"; jobname := "A" |}
                (Returns (Rejected Demo.boom))
                eq_refl eq_refl eq_refl) as [_ Hfail].
    exact (Hfail Demo.boom issue_rejects eq_refl eq_refl).
Defined.

(** [modifyCommand], once the input box has returned a string: when
    [issueSimple] resolves, one notification shows the localized "Command
    response: " followed by the response text; when it raises an error, no
    notification is shown and that error goes to the reporter. *)
Theorem modifyCommand_response_or_report {W} (env : Env W) (node : NodeId)
    (s s0 s1 s2 : Store W) (input : string) (session : Session) (j : IJob)
    (o : outcome (promise IConsoleResponse))
    (Hinput : showInputBox env (modify_prompt env) s = (s0, Returns (Resolved (Some input))))
    (Hsession : getSession env node s0 = (s1, Returns session))
    (Hjob : job (nodes s1 node) = Some j)
    (Hissue : issueSimple env session ("f " +:+ jobname j +:+ "," +:+ input) s1 = (s2, o)) :
  (forall (r : IConsoleResponse) (s3 : Store W) (pr : promise unit),
     o = Returns (Resolved r) ->
     showInformationMessage env
       (localize env "modifyCommand.response" "Command response: " +:+ commandResponse r) s2
     = (s3, Returns pr) ->
     modifyCommand env node s
     = (s3,
        [Ev (ShowInputBox (modify_prompt env)) Completed;
         Ev (GetSession node) Completed;
         Ev (IssueSimple session ("f " +:+ jobname j +:+ "," +:+ input)) Completed;
         Ev (ShowInformationMessage
               (localize env "modifyCommand.response" "Command response: "
                +:+ commandResponse r))
            (dropped_status (Returns pr))],
        Normal tt))
  /\ (forall (e : JsError) (s3 : Store W),
        awaited_status o = Raised e ->
        errorHandling env e None (message e) s2 = (s3, Returns (Resolved tt)) ->
        modifyCommand env node s
        = (s3,
           [Ev (ShowInputBox (modify_prompt env)) Completed;
            Ev (GetSession node) Completed;
            Ev (IssueSimple session ("f " +:+ jobname j +:+ "," +:+ input)) (Raised e);
            Ev (ErrorHandling e None (message e)) Completed],
           Normal tt)).
Proof.
  unfold modify_prompt in *. split.
  - intros r s3 pr -> Hnotify. expose. rewrite Hinput. simpl.
    rewrite Hsession. simpl. rewrite Hjob. simpl.
    rewrite Hissue. simpl. rewrite Hnotify. by destruct pr as [[]|?].
  - intros e s3 Hraised Hreport. expose. rewrite Hinput. simpl.
    rewrite Hsession. simpl. rewrite Hjob. simpl.
    rewrite Hissue. destruct o as [[r|e']|e']; simplify_eq/=; by rewrite Hreport.
Qed.

Lemma modifyCommand_response_or_report_witness :
  modifyCommand Faulty.env 1 all_well
  = (all_well,
     [Ev (ShowInputBox {| prompt := "Modify Command" |}) Completed;
      Ev (GetSession 1) Completed;
      Ev (IssueSimple 31 "f A,HELLO") Completed;
      Ev (ShowInformationMessage "Command response: OK") Completed],
     Normal tt).
Proof.
  destruct (modifyCommand_response_or_report Faulty.env 1
              all_well all_well all_well all_well "HELLO"
              31 {| jobid := "1"; jobname := "A" |}
              (Returns (Resolved {| commandResponse := "OK" |}))
              eq_refl eq_refl eq_refl eq_refl) as [Hok _].
  exact (Hok {| commandResponse := "OK" |} all_well (Resolved tt) eq_refl eq_refl).
Defined.

(** [stopCommand] and [modifyCommand] on a node that carries no job: the
    session has been fetched already; reading the job name throws, the error
    goes to the reporter, and no command is issued. *)
Theorem command_without_job_reported {W} (env : Env W) (node : NodeId)
    (s s1 s2 m m0 m1 m2 : Store W) (session session' : Session) (input : string)
    (Hsession : getSession env node s = (s1, Returns session))
    (Hnojob : job (nodes s1 node) = None)
    (Hreport : errorHandling env TypeError None (message TypeError) s1
               = (s2, Returns (Resolved tt)))
    (Hinput : showInputBox env (modify_prompt env) m = (m0, Returns (Resolved (Some input))))
    (Hsession' : getSession env node m0 = (m1, Returns session'))
    (Hnojob' : job (nodes m1 node) = None)
    (Hreport' : errorHandling env TypeError None (message TypeError) m1
                = (m2, Returns (Resolved tt))) :
  stopCommand env node s
  = (s2,
     [Ev (GetSession node) Completed;
      Ev (ErrorHandling TypeError None (message TypeError)) Completed],
     Normal tt)
  /\ modifyCommand env node m
     = (m2,
        [Ev (ShowInputBox (modify_prompt env)) Completed;
         Ev (GetSession node) Completed;
         Ev (ErrorHandling TypeError None (message TypeError)) Completed],
        Normal tt).
Proof.
  unfold modify_prompt in *. simpl in Hreport, Hreport'. split.
  - expose. rewrite Hsession. simpl. rewrite Hnojob. simpl. by rewrite Hreport.
  - expose. rewrite Hinput. simpl. rewrite Hsession'. simpl. rewrite Hnojob'. simpl.
    by rewrite Hreport'.
Qed.

Lemma command_without_job_reported_witness :
  issued (trace (stopCommand Faulty.env 10 all_well)) = []
  /\ reports (trace (stopCommand Faulty.env 10 all_well)) = 1
  /\ issued (trace (modifyCommand Faulty.env 10 all_well)) = []
  /\ reports (trace (modifyCommand Faulty.env 10 all_well)) = 1.
Proof.
  destruct (command_without_job_reported Faulty.env 10
              all_well all_well all_well all_well all_well all_well all_well
              40 40 "HELLO"
              eq_refl eq_refl eq_refl eq_refl eq_refl eq_refl eq_refl) as [Hstop Hmodify].
  rewrite Hstop, Hmodify. by repeat split.
Defined.

(** [getSpoolContent]: when showing the document raises an error, the error
    goes to the reporter with the session name as label and its own message,
    and the handler returns normally. *)
Theorem getSpoolContent_show_failure_reported {W} (env : Env W)
    (session : string) (spool : IJobFile) (refreshTimestamp : Z)
    (s s1 s2 s3 s4 s5 : Store W) (p : IProfileLoaded) (uri : Uri)
    (o : outcome (promise unit)) (e : JsError)
    (Hload : loadNamedProfile env session s = (s1, Returns p))
    (Hcheck : checkCurrentProfile env p s1 = (s2, Returns (Resolved tt)))
    (Hvalid : validProfile s2 = VALID \/ validProfile s2 = UNVERIFIED)
    (Huri : toUniqueJobFileUri env session spool (number_toString refreshTimestamp) s2
            = (s3, Returns uri))
    (Hshow : showTextDocument env (OfUri uri) s3 = (s4, o))
    (Hraised : awaited_status o = Raised e)
    (Hreport : errorHandling env e (Some session) (message e) s4
               = (s5, Returns (Resolved tt))) :
  getSpoolContent env session spool refreshTimestamp s
  = (s5,
     [Ev (LoadNamedProfile session) Completed;
      Ev (CheckCurrentProfile p) Completed;
      Ev (ToUniqueJobFileUri session spool (number_toString refreshTimestamp)) Completed;
      Ev (ShowTextDocument (OfUri uri)) (Raised e);
      Ev (ErrorHandling e (Some session) (message e)) Completed],
     Normal tt).
Proof.
  expose. rewrite Hload. simpl. rewrite Hcheck. simpl.
  assert (ValidProfileEnum_eqb (validProfile s2) VALID
          || ValidProfileEnum_eqb (validProfile s2) UNVERIFIED = true) as ->
    by (by destruct Hvalid as [-> | ->]).
  rewrite Huri. simpl. rewrite Hshow.
  destruct o as [[[]|e']|e']; simplify_eq/=; by rewrite Hreport.
Qed.

Lemma getSpoolContent_show_failure_reported_witness :
  getSpoolContent Faulty.env "zosmf" 5 1700000000000 show_rejects
  = (Faulty.store [10] VALID Demo.happy (Faulty.fault (world show_rejects)),
     [Ev (LoadNamedProfile "zosmf") Completed;
      Ev (CheckCurrentProfile 7) Completed;
      Ev (ToUniqueJobFileUri "zosmf" 5 "1700000000000") Completed;
      Ev (ShowTextDocument (OfUri {| fsPath := "zosmf/1700000000000" |})) (Raised Demo.boom);
      Ev (ErrorHandling Demo.boom (Some "zosmf") "boom") Completed],
     Normal tt).
Proof.
  exact (getSpoolContent_show_failure_reported Faulty.env "zosmf" 5 1700000000000
           show_rejects show_rejects _ _ _ _ 7 {| fsPath := "zosmf/1700000000000" |}
           (Returns (Rejected Demo.boom)) Demo.boom
           eq_refl eq_refl (or_introl eq_refl) eq_refl eq_refl eq_refl eq_refl).
Defined.

(** [getSpoolContent]: once the profile is loaded, if the profile check
    raises an error, or ends with the validity INVALID, the handler stops
    after the check: it derives no URI and shows no document.  The error of
    the check is not caught: it leaves the handler and the reporter is not
    called. *)
Theorem getSpoolContent_stops_after_check {W} (env : Env W)
    (session : string) (spool : IJobFile) (refreshTimestamp : Z)
    (s s1 s2 : Store W) (p : IProfileLoaded) (o : outcome (promise unit))
    (Hload : loadNamedProfile env session s = (s1, Returns p))
    (Hcheck : checkCurrentProfile env p s1 = (s2, o))
    (Hclosed : awaited_status o ≠ Completed \/ validProfile s2 = INVALID) :
  getSpoolContent env session spool refreshTimestamp s
  = (s2,
     [Ev (LoadNamedProfile session) Completed;
      Ev (CheckCurrentProfile p) (awaited_status o)],
     awaited_result o).
Proof.
  expose. rewrite Hload. simpl. rewrite Hcheck.
  destruct o as [[[]|e]|e]; simpl; try done.
  destruct Hclosed as [Hstatus | ->]; [by destruct Hstatus | done].
Qed.

Lemma getSpoolContent_stops_after_check_witness :
  getSpoolContent Faulty.env "zosmf" 5 1700000000000 profile_check_rejects
  = (profile_check_rejects,
     [Ev (LoadNamedProfile "zosmf") Completed;
      Ev (CheckCurrentProfile 7) (Raised Demo.boom)],
     Throw Demo.boom).
Proof.
  apply (getSpoolContent_stops_after_check Faulty.env "zosmf" 5 1700000000000
           profile_check_rejects profile_check_rejects profile_check_rejects 7
           (Returns (Rejected Demo.boom))).
  - reflexivity.
  - reflexivity.
  - left. discriminate.
Defined.

(** ** Further properties of focusOnJob *)

Section FocusOnJobFailures.

Context {W : Type} (env : Env W).

(** The search throws at the first child without a job, if no child before
    it carries the job id. *)
Lemma find_jobid_throws (s : Store W) jobId before bad after :
  Forall (fun n => exists j, job (nodes s n) = Some j /\ jobid j ≠ jobId) before ->
  job (nodes s bad) = None ->
  find_jobid s jobId (before ++ bad :: after) = Throw TypeError.
Proof.
  intros Hbefore Hbad.
  induction Hbefore as [|n rest (j & Hjob & Hid) _ IH]; simpl.
  - by rewrite Hbad.
  - rewrite Hjob. by apply String.eqb_neq in Hid as ->.
Qed.

Lemma trimEnd_idempotent (x : string) : trimEnd (trimEnd x) = trimEnd x.
Proof.
  induction x as [|c r IH]; [done|].
  simpl. destruct (trimEnd r) as [|c' r'] eqn:Hr.
  - destruct (is_white_space c) eqn:Hc; [done|]. simpl. by rewrite Hc.
  - simpl in *. by rewrite IH.
Qed.

Lemma trimStart_trimEnd (x : string) :
  trimStart x = x -> trimStart (trimEnd x) = trimEnd x.
Proof.
  destruct x as [|c r]; [done|].
  simpl. destruct (is_white_space c) eqn:Hc.
  - intros Hshorter. apply (f_equal String.length) in Hshorter. simpl in Hshorter.
    assert (forall y, String.length (trimStart y) <= String.length y) as Hle.
    { induction y as [|d y IH]; simpl; [lia|].
      destruct (is_white_space d); simpl; lia. }
    specialize (Hle r). lia.
  - intros _. destruct (trimEnd r); simpl; by rewrite Hc.
Qed.

Lemma trimStart_idempotent (x : string) : trimStart (trimStart x) = trimStart x.
Proof.
  induction x as [|c r IH]; [done|].
  simpl. destruct (is_white_space c) eqn:Hc; [done|]. simpl. by rewrite Hc.
Qed.

(** Trimming twice is trimming once. *)
Lemma trim_idempotent (x : string) : trim (trim x) = trim x.
Proof.
  unfold trim. rewrite (trimStart_trimEnd (trimStart x)).
  - apply trimEnd_idempotent.
  - apply trimStart_idempotent.
Qed.

End FocusOnJobFailures.

(** [focusOnJob]: when no session node matches and [addSession] raises an
    error, the error goes to the reporter and the handler returns: nothing
    is refreshed, no [searchId] is assigned, no children are fetched. *)
Theorem focusOnJob_addSession_failure {W} (env : Env W)
    (sessionName jobId : string) (s s1 s2 : Store W)
    (o : outcome (promise unit)) (e : JsError)
    (Habsent : session_by_trimmed_label sessionName s = None)
    (Hadd : addSession env sessionName s = (s1, o))
    (Hraised : awaited_status o = Raised e)
    (Hreport : errorHandling env e None (message e) s1 = (s2, Returns (Resolved tt))) :
  focusOnJob env sessionName jobId s
  = (s2,
     [Ev (AddSession sessionName) (Raised e);
      Ev (ErrorHandling e None (message e)) Completed],
     Normal tt).
Proof.
  unfold session_by_trimmed_label in *. expose. simpl. rewrite Habsent. simpl.
  rewrite Hadd. destruct o as [[[]|e']|e']; simplify_eq/=; by rewrite Hreport.
Qed.

Lemma focusOnJob_addSession_failure_witness :
  focusOnJob Faulty.env "zosmf" "2" add_rejects
  = (add_rejects,
     [Ev (AddSession "zosmf") (Raised Demo.boom);
      Ev (ErrorHandling Demo.boom None "boom") Completed],
     Normal tt).
Proof.
  apply (focusOnJob_addSession_failure Faulty.env "zosmf" "2"
           add_rejects add_rejects add_rejects (Returns (Rejected Demo.boom)) Demo.boom);
    reflexivity.
Defined.

(** [focusOnJob]: when [refreshElement] throws on the session node, the
    error goes to the reporter and the handler returns before it assigns
    [searchId] or fetches the children. *)
Theorem focusOnJob_refresh_failure {W} (env : Env W)
    (sessionName jobId : string) (s s1 s2 s3 : Store W) (sn : NodeId) (e : JsError)
    (Hsession :
       (session_by_trimmed_label sessionName s = Some sn /\ s1 = s)
       \/ (session_by_trimmed_label sessionName s = None
           /\ addSession env sessionName s = (s1, Returns (Resolved tt))
           /\ session_by_label sessionName s1 = Some sn))
    (Hrefresh : refreshElement env (Some sn) s1 = (s2, Throws e))
    (Hreport : errorHandling env e None (message e) s2 = (s3, Returns (Resolved tt))) :
  focusOnJob env sessionName jobId s
  = (s3,
     match session_by_trimmed_label sessionName s with
     | Some _ => []
     | None => [Ev (AddSession sessionName) Completed]
     end
     ++ [Ev (RefreshElement (Some sn)) (Raised e);
         Ev (ErrorHandling e None (message e)) Completed],
     Normal tt).
Proof.
  unfold session_by_trimmed_label, session_by_label in *. expose. simpl.
  destruct Hsession as [[-> ->] | (-> & Hadd & Hcreated)]; simpl.
  - rewrite Hrefresh. simpl. by rewrite Hreport.
  - rewrite Hadd. simpl. rewrite Hcreated. simpl.
    rewrite Hrefresh. simpl. by rewrite Hreport.
Qed.

Lemma focusOnJob_refresh_failure_witness :
  focusOnJob Faulty.env "zosmf" "2" refresh_throws
  = (refresh_throws,
     [Ev (RefreshElement (Some 10)) (Raised Demo.boom);
      Ev (ErrorHandling Demo.boom None "boom") Completed],
     Normal tt).
Proof.
  apply (focusOnJob_refresh_failure Faulty.env "zosmf" "2"
           refresh_throws refresh_throws refresh_throws refresh_throws 10 Demo.boom);
    [by left | reflexivity | reflexivity].
Defined.

(** [focusOnJob]: fetching the children is not guarded.  When [getChildren]
    raises an error, [searchId] has been assigned already, the error leaves
    the handler, the reporter is not called and nothing is selected. *)
Theorem focusOnJob_children_failure {W} (env : Env W)
    (sessionName jobId : string) (s s1 s2 s3 : Store W) (sn : NodeId)
    (pr : promise unit) (o : outcome (promise (list NodeId))) (e : JsError)
    (Hsession :
       (session_by_trimmed_label sessionName s = Some sn /\ s1 = s)
       \/ (session_by_trimmed_label sessionName s = None
           /\ addSession env sessionName s = (s1, Returns (Resolved tt))
           /\ session_by_label sessionName s1 = Some sn))
    (Hrefresh : refreshElement env (Some sn) s1 = (s2, Returns pr))
    (Hchildren : getChildren env sn (update_node sn (put_searchId (Some jobId)) s2)
                 = (s3, o))
    (Hraised : awaited_status o = Raised e) :
  focusOnJob env sessionName jobId s
  = (s3,
     match session_by_trimmed_label sessionName s with
     | Some _ => []
     | None => [Ev (AddSession sessionName) Completed]
     end
     ++ [Ev (RefreshElement (Some sn)) (dropped_status (Returns pr));
         Ev (GetChildren sn) (Raised e)],
     Throw e)
  /\ searchId (nodes (update_node sn (put_searchId (Some jobId)) s2) sn) = Some jobId.
Proof.
  split; [|by rewrite update_node_same].
  unfold session_by_trimmed_label, session_by_label in *. expose. simpl.
  destruct Hsession as [[-> ->] | (-> & Hadd & Hcreated)]; simpl.
  - rewrite Hrefresh. destruct pr as [[]|?]; simpl; rewrite Hchildren;
      destruct o as [[?|e']|e']; by simplify_eq/=.
  - rewrite Hadd. simpl. rewrite Hcreated. simpl.
    rewrite Hrefresh. destruct pr as [[]|?]; simpl; rewrite Hchildren;
      destruct o as [[?|e']|e']; by simplify_eq/=.
Qed.

Lemma focusOnJob_children_failure_witness :
  focusOnJob Faulty.env "zosmf" "2" children_reject
  = (update_node 10 (put_searchId (Some "2")) children_reject,
     [Ev (RefreshElement (Some 10)) Completed;
      Ev (GetChildren 10) (Raised Demo.boom)],
     Throw Demo.boom)
  /\ searchId (nodes (update_node 10 (put_searchId (Some "2")) children_reject) 10)
     = Some "2".
Proof.
  apply (focusOnJob_children_failure Faulty.env "zosmf" "2"
           children_reject children_reject children_reject
           (update_node 10 (put_searchId (Some "2")) children_reject)
           10 (Resolved tt) (Returns (Rejected Demo.boom)) Demo.boom);
    [by left | reflexivity | reflexivity | reflexivity].
Defined.

(** [focusOnJob]: the search through the children reads [job.jobid] of each
    child in turn.  A child without [job] that comes before any child with
    the job id makes the search throw: the error leaves the handler and
    nothing is selected, even if a later child carries the job id. *)
Theorem focusOnJob_child_without_job {W} (env : Env W)
    (sessionName jobId : string) (s s1 s2 s3 : Store W) (sn bad : NodeId)
    (before after : list NodeId) (pr : promise unit)
    (Hsession :
       (session_by_trimmed_label sessionName s = Some sn /\ s1 = s)
       \/ (session_by_trimmed_label sessionName s = None
           /\ addSession env sessionName s = (s1, Returns (Resolved tt))
           /\ session_by_label sessionName s1 = Some sn))
    (Hrefresh : refreshElement env (Some sn) s1 = (s2, Returns pr))
    (Hchildren : getChildren env sn (update_node sn (put_searchId (Some jobId)) s2)
                 = (s3, Returns (Resolved (before ++ bad :: after))))
    (Hbefore : Forall (fun n => exists j, job (nodes s3 n) = Some j /\ jobid j ≠ jobId)
                      before)
    (Hbad : job (nodes s3 bad) = None) :
  focusOnJob env sessionName jobId s
  = (s3,
     match session_by_trimmed_label sessionName s with
     | Some _ => []
     | None => [Ev (AddSession sessionName) Completed]
     end
     ++ [Ev (RefreshElement (Some sn)) (dropped_status (Returns pr));
         Ev (GetChildren sn) Completed],
     Throw TypeError).
Proof.
  pose proof (find_jobid_throws s3 jobId before bad after Hbefore Hbad) as Hfind.
  unfold session_by_trimmed_label, session_by_label in *. expose. simpl.
  destruct Hsession as [[-> ->] | (-> & Hadd & Hcreated)]; simpl.
  - rewrite Hrefresh. destruct pr as [[]|?]; simpl; rewrite Hchildren; simpl;
      by rewrite Hfind.
  - rewrite Hadd. simpl. rewrite Hcreated. simpl.
    rewrite Hrefresh. destruct pr as [[]|?]; simpl; rewrite Hchildren; simpl;
      by rewrite Hfind.
Qed.

Lemma focusOnJob_child_without_job_witness :
  focusOnJob Faulty.env "zosmf" "2" odd_child
  = (update_node 10 (put_searchId (Some "2")) odd_child,
     [Ev (RefreshElement (Some 10)) Completed; Ev (GetChildren 10) Completed],
     Throw TypeError).
Proof.
  apply (focusOnJob_child_without_job Faulty.env "zosmf" "2"
           odd_child odd_child odd_child
           (update_node 10 (put_searchId (Some "2")) odd_child)
           10 11 [1] [2] (Resolved tt));
    [by left | reflexivity | reflexivity | | reflexivity].
  constructor; [|constructor]. by exists {| jobid := "1"; jobname := "A" |}.
Defined.

(** [focusOnJob]: a session name enters the look-up of an existing session
    only through its trimmed form.  When a session node matches, the handler
    runs exactly as it does for the trimmed name. *)
Theorem focusOnJob_existing_session_trimmed {W} (env : Env W)
    (sessionName jobId : string) (s : Store W) (sn : NodeId)
    (Hpresent : session_by_trimmed_label sessionName s = Some sn) :
  focusOnJob env sessionName jobId s = focusOnJob env (trim sessionName) jobId s
  /\ added (trace (focusOnJob env sessionName jobId s)) = [].
Proof.
  split.
  - unfold session_by_trimmed_label in *. expose. simpl.
    rewrite trim_idempotent, Hpresent. reflexivity.
  - rewrite focusOnJob_added. by rewrite Hpresent.
Qed.

Lemma focusOnJob_existing_session_trimmed_witness :
  focusOnJob Faulty.env "  zosmf " "2" all_well = focusOnJob Faulty.env "zosmf" "2" all_well
  /\ added (trace (focusOnJob Faulty.env "  zosmf " "2" all_well)) = [].
Proof.
  exact (focusOnJob_existing_session_trimmed Faulty.env "  zosmf " "2" all_well 10 eq_refl).
Defined.

(** ** Further properties of deleteCommand *)

Section DeleteCommandRuns.

Context {W : Type} (env : Env W).

(** When every deletion resolves, the loop has deleted the nodes in order
    and put their entries in front of the array, last deleted first. *)
Lemma delete_each_resolves l (s s' : Store W) js :
  deletes env l s s' js ->
  forall acc,
    delete_each env l acc s
    = (s', map (fun n => Ev (Delete n) Completed) l, Normal (rev (map listed js) ++ acc)).
Proof.
  induction 1 as [s|n rest s s1 s' j js Hdelete Hjob _ IH]; intros acc; [done|].
  simpl. expose. rewrite Hdelete. simpl. rewrite Hjob. simpl.
  rewrite IH. unfold unshift, listed. by rewrite <- app_assoc.
Qed.

(** When a deletion raises an error, the loop ends there. *)
Lemma delete_each_fails before a after (s s2 s3 : Store W) js o e :
  deletes env before s s2 js ->
  provider_delete env a s2 = (s3, o) ->
  awaited_status o = Raised e ->
  forall acc,
    delete_each env (before ++ a :: after) acc s
    = (s3,
       map (fun n => Ev (Delete n) Completed) before ++ [Ev (Delete a) (Raised e)],
       Throw e).
Proof.
  intros Hbefore Hdelete Hraised.
  induction Hbefore as [s|n rest s s1 s' j js Hdelete' Hjob _ IH]; intros acc.
  - simpl. expose. rewrite Hdelete. destruct o as [[[]|e']|e']; by simplify_eq/=.
  - simpl. expose. rewrite Hdelete'. simpl. rewrite Hjob. simpl.
    by rewrite (IH Hdelete).
Qed.

End DeleteCommandRuns.

(** [deleteCommand] with job nodes in the selection, all of whose deletions
    resolve: the nodes are deleted in the order of the selection, whatever
    job was passed as argument is left alone, and the one notification lists
    the entries " jobname(jobid)" in the reverse order, joined by commas,
    the placeholder entry removed; the broadcast comes last. *)
Theorem deleteCommand_lists_in_reverse {W} (env : Env W) (job0 : option NodeId)
    (s s1 s2 s3 : Store W) (view : TreeView) (l : list NodeId) (js : list IJob)
    (pr : promise unit)
    (Hview : getTreeView env s = (s1, Returns view))
    (Hselected : filter_jobs s1 (selection view) = l)
    (Hsome : l ≠ [])
    (Hdeletes : deletes env l s1 s2 js)
    (Hnotify : showInformationMessage env
                 (localize env "deleteMulti.job" "The following jobs were deleted:"
                  +:+ array_toString (rev (map listed js))) s2
               = (s3, Returns pr)) :
  map call (trace (deleteCommand env job0 s))
  = GetTreeView :: map Delete l
    ++ [ShowInformationMessage
          (localize env "deleteMulti.job" "The following jobs were deleted:"
           +:+ array_toString (rev (map listed js)));
        ExecuteCommand "zowe.jobs.refreshAllJobs"].
Proof.
  expose. rewrite Hview. simpl. rewrite Hselected.
  destruct l as [|n l]; [done|].
  change ((0 <? length (n :: l))%nat) with true. cbv beta iota.
  rewrite (delete_each_resolves env _ _ _ _ Hdeletes [" "]). simpl.
  unfold pop. rewrite removelast_last. rewrite Hnotify.
  assert (forall t : list NodeId,
            map call (map (fun n => Ev (Delete n) Completed) t) = map Delete t) as Hcalls
    by (intros t; rewrite map_map; by apply map_ext).
  destruct pr as [[]|?], job0; simpl; repeat branch;
    rewrite ?app_nil_r, ?map_app, ?Hcalls, <- ?app_assoc; reflexivity.
Qed.

Lemma deleteCommand_lists_in_reverse_witness :
  map call (trace (deleteCommand Faulty.env (Some 3) three_selected))
  = [GetTreeView; Delete 3; Delete 1; Delete 2;
     ShowInformationMessage "The following jobs were deleted: B(2), A(1), C(3)";
     ExecuteCommand "zowe.jobs.refreshAllJobs"].
Proof.
  apply (deleteCommand_lists_in_reverse Faulty.env (Some 3)
           three_selected three_selected three_selected three_selected
           {| selection := [3; 1; 2] |} [3; 1; 2]
           [{| jobid := "3"; jobname := "C" |};
            {| jobid := "1"; jobname := "A" |};
            {| jobid := "2"; jobname := "B" |}]
           (Resolved tt)); try reflexivity; try discriminate.
  repeat (econstructor; try reflexivity).
Defined.

(** [deleteCommand] with job nodes in the selection: when a deletion raises
    an error, the error leaves the handler at once.  The nodes before it
    have been deleted, those after it are not, no notification is shown and
    "refresh all jobs" is not broadcast. *)
Theorem deleteCommand_failed_delete_stops {W} (env : Env W) (job0 : option NodeId)
    (s s1 s2 s3 : Store W) (view : TreeView) (before after : list NodeId)
    (a : NodeId) (js : list IJob) (o : outcome (promise unit)) (e : JsError)
    (Hview : getTreeView env s = (s1, Returns view))
    (Hselected : filter_jobs s1 (selection view) = before ++ a :: after)
    (Hdeletes : deletes env before s1 s2 js)
    (Hdelete : provider_delete env a s2 = (s3, o))
    (Hraised : awaited_status o = Raised e) :
  deleteCommand env job0 s
  = (s3,
     Ev GetTreeView Completed
     :: map (fun n => Ev (Delete n) Completed) before ++ [Ev (Delete a) (Raised e)],
     Throw e).
Proof.
  expose. rewrite Hview. simpl. rewrite Hselected.
  assert ((0 <? length (before ++ a :: after))%nat = true) as ->.
  { apply Nat.ltb_lt. rewrite length_app. simpl. lia. }
  cbv beta iota.
  by rewrite (delete_each_fails env before a after s1 s2 s3 js o e Hdeletes Hdelete Hraised).
Qed.

Lemma deleteCommand_failed_delete_stops_witness :
  deleteCommand Faulty.env None second_delete_rejects
  = (second_delete_rejects,
     [Ev GetTreeView Completed; Ev (Delete 3) Completed; Ev (Delete 1) (Raised Demo.boom)],
     Throw Demo.boom).
Proof.
  apply (deleteCommand_failed_delete_stops Faulty.env None
           second_delete_rejects second_delete_rejects second_delete_rejects
           second_delete_rejects {| selection := [3; 1; 2] |} [3] [2] 1
           [{| jobid := "3"; jobname := "C" |}] (Returns (Rejected Demo.boom)) Demo.boom);
    try reflexivity.
  repeat (econstructor; try reflexivity).
Defined.

(** [deleteCommand] on a single job does not await the deletion: when the
    promise of [delete] rejects, the notification "Job <jobname>(<jobid>)
    deleted" is shown all the same, "refresh all jobs" is broadcast, the
    reporter is not called and the handler ends normally. *)
Theorem deleteCommand_single_rejection_notified {W} (env : Env W) (c : NodeId)
    (s s1 s2 s3 s4 : Store W) (view : TreeView) (j : IJob) (e : JsError)
    (pr : promise unit)
    (Hview : getTreeView env s = (s1, Returns view))
    (Hnone : filter_jobs s1 (selection view) = [])
    (Hdelete : provider_delete env c s1 = (s2, Returns (Rejected e)))
    (Hjob : job (nodes s2 c) = Some j)
    (Hnotify : showInformationMessage env
                 (localize env "deleteCommand.job" "Job "
                  +:+ jobname j +:+ "(" +:+ jobid j +:+ ")"
                  +:+ localize env "deleteCommand.delete" " deleted") s2
               = (s3, Returns pr))
    (Hbroadcast : executeCommand env "zowe.jobs.refreshAllJobs" s3
                  = (s4, Returns (Resolved tt))) :
  deleteCommand env (Some c) s
  = (s4,
     [Ev GetTreeView Completed;
      Ev (Delete c) (Unhandled e);
      Ev (ShowInformationMessage
            (localize env "deleteCommand.job" "Job "
             +:+ jobname j +:+ "(" +:+ jobid j +:+ ")"
             +:+ localize env "deleteCommand.delete" " deleted"))
         (dropped_status (Returns pr));
      Ev (ExecuteCommand "zowe.jobs.refreshAllJobs") Completed],
     Normal tt).
Proof.
  expose. rewrite Hview. simpl. rewrite Hnone. simpl.
  rewrite Hdelete. simpl. rewrite Hjob. simpl. rewrite Hnotify.
  change refreshAllJobs with "zowe.jobs.refreshAllJobs".
  destruct pr as [[]|?]; simpl; by rewrite Hbroadcast.
Qed.

Lemma deleteCommand_single_rejection_notified_witness :
  deleteCommand Faulty.env (Some 3) delete_rejects
  = (delete_rejects,
     [Ev GetTreeView Completed;
      Ev (Delete 3) (Unhandled Demo.boom);
      Ev (ShowInformationMessage "Job C(3) deleted") Completed;
      Ev (ExecuteCommand "zowe.jobs.refreshAllJobs") Completed],
     Normal tt).
Proof.
  apply (deleteCommand_single_rejection_notified Faulty.env 3
           delete_rejects delete_rejects delete_rejects delete_rejects delete_rejects
           {| selection := [] |} {| jobid := "3"; jobname := "C" |} Demo.boom
           (Resolved tt)); reflexivity.
Defined.

(** ** What no handler does *)

Section Never.

Context {W : Type} (env : Env W).

Lemma reports_app (t1 t2 : Trace) : reports (t1 ++ t2) = reports t1 + reports t2.
Proof. unfold reports, Trace in *. by rewrite list.filter_app, length_app. Qed.

Lemma prompts_app (t1 t2 : Trace) :
  length (filter is_prompt (t1 ++ t2))
  = length (filter is_prompt t1) + length (filter is_prompt t2).
Proof. unfold Trace in *. by rewrite list.filter_app, length_app. Qed.

(** The loop of [deleteCommand] calls nothing but [delete]. *)
Lemma delete_each_only_deletes l acc (s : Store W) :
  Forall (fun ev => exists n, call ev = Delete n) (trace (delete_each env l acc s)).
Proof.
  revert acc s. induction l as [|node rest IH]; intros acc s; [by constructor|].
  simpl. expose.
  destruct (provider_delete env node s) as [s1 [[[]|e]|e]]; simpl;
    try (repeat constructor; by eexists).
  destruct (job (nodes s1 node)) as [j|]; simpl;
    try (repeat constructor; by eexists).
  specialize (IH (unshift (" " +:+ jobname j +:+ "(" +:+ jobid j +:+ ")") acc) s1).
  destruct (delete_each env rest _ s1) as [[s2 t2] c2]. simpl in *.
  constructor; [by eexists | done].
Qed.

Lemma only_deletes_quiet (t : Trace) :
  Forall (fun ev => exists n, call ev = Delete n) t ->
  reports t = 0 /\ length (filter is_prompt t) = 0.
Proof.
  induction 1 as [|[c st] t [n Hcall] _ [IHr IHp]]; [done|].
  simpl in Hcall. subst c. split.
  - unfold reports, Trace in *. by rewrite filter_cons_False by (simpl; tauto).
  - unfold Trace in *. by rewrite filter_cons_False by (simpl; tauto).
Qed.

End Never.

Section Counting.

Context {W : Type} (env : Env W).

Lemma reports_cons (ev : Event) (t : Trace) :
  reports (ev :: t) = (if is_report ev then 1 else 0) + reports t.
Proof.
  change (ev :: t) with ([ev] ++ t). rewrite reports_app. f_equal.
  unfold reports, Trace. rewrite filter_singleton by exact [].
  by destruct ev as [[] ?].
Qed.

Lemma prompts_cons (ev : Event) (t : Trace) :
  length (filter is_prompt (ev :: t))
  = (if is_prompt ev then 1 else 0) + length (filter is_prompt t).
Proof.
  change (ev :: t) with ([ev] ++ t). rewrite prompts_app. f_equal.
  unfold Trace. rewrite filter_singleton by exact [].
  by destruct ev as [[] ?].
Qed.

End Counting.

(** In every run of every handler the error reporter is called at most
    once.  A handler without a [try] block never calls it.  When it is
    called, it is the last call of the run, its message is the message of
    the error it is given, and its label is the session name in
    [getSpoolContent] and absent everywhere else. *)
Theorem reporter_once_and_last {W} (env : Env W) (i : Invocation) (s : Store W) :
  reports (trace (handle env i s)) = 0
  \/ (has_try i = true
      /\ reports (trace (handle env i s)) = 1
      /\ exists e st, list.last (trace (handle env i s))
                      = Some (Ev (ErrorHandling e (report_label i) (message e)) st)).
Proof.
  destruct i as [n|session spool ts|n|n|n|name id|n|n|n|n|n].
  11: {
    destruct (handle env _ s) as [[sf t] c] eqn:Hrun.
    expose. cbv beta iota in Hrun. left.
    destruct (getTreeView env s) as [s1 [view|e]] eqn:Hview; simpl in Hrun;
      [|simplify_eq/=; reflexivity].
    pose proof (only_deletes_quiet _
                  (delete_each_only_deletes env (filter_jobs s1 (selection view))
                     [" "] s1)) as [Hquiet _].
    destruct (0 <? length (filter_jobs s1 (selection view)))%nat;
      cbv beta iota in Hrun.
    - remember (delete_each env (filter_jobs s1 (selection view)) [" "] s1)
        as loop eqn:Hloop in *.
      clear Hloop. destruct loop as [[s2 t2] c2].
      unfold trace in Hquiet. simpl in Hquiet.
      repeat step_in Hrun; simplify_eq/=.
      all: by rewrite ?reports_cons, ?reports_app, ?Hquiet.
    - simpl in Hrun. repeat step_in Hrun; by simplify_eq/=. }
  all: destruct (handle env _ s) as [[sf t] c] eqn:Hrun.
  all: expose; simpl in Hrun.
  all: repeat step_in Hrun; simplify_eq/=.
  all: first [by left
             | right; repeat split; try done;
               first [by eauto | by eexists TypeError, _]].
Qed.

(** Only [downloadSpool], [modifyCommand], [setOwner] and [setPrefix] open a
    dialog or an input box, and each opens exactly one in every run; no
    other handler ever does.  In particular [deleteCommand] deletes without
    asking. *)
Theorem prompts_exactly {W} (env : Env W) (i : Invocation) (s : Store W) :
  length (filter is_prompt (trace (handle env i s))) = if prompting i then 1 else 0.
Proof.
  destruct i as [n|session spool ts|n|n|n|name id|n|n|n|n|n].
  11: {
    destruct (handle env _ s) as [[sf t] c] eqn:Hrun.
    expose. cbv beta iota in Hrun.
    destruct (getTreeView env s) as [s1 [view|e]] eqn:Hview; simpl in Hrun;
      [|simplify_eq/=; reflexivity].
    pose proof (only_deletes_quiet _
                  (delete_each_only_deletes env (filter_jobs s1 (selection view))
                     [" "] s1)) as [_ Hquiet].
    destruct (0 <? length (filter_jobs s1 (selection view)))%nat;
      cbv beta iota in Hrun.
    - remember (delete_each env (filter_jobs s1 (selection view)) [" "] s1)
        as loop eqn:Hloop in *.
      clear Hloop. destruct loop as [[s2 t2] c2].
      unfold trace in Hquiet. simpl in Hquiet.
      repeat step_in Hrun; simplify_eq/=.
      all: by rewrite ?prompts_cons, ?prompts_app, ?Hquiet.
    - simpl in Hrun. repeat step_in Hrun; by simplify_eq/=. }
  all: destruct (handle env _ s) as [[sf t] c] eqn:Hrun.
  all: expose; simpl in Hrun.
  all: repeat step_in Hrun; by simplify_eq/=.
Qed.

(** [deleteCommand] on a single node that carries no job (a session node,
    say): [delete] has been called on the node before the notification text
    is built; reading the job name then throws, the error leaves the
    handler, no notification is shown and nothing is broadcast. *)
Theorem deleteCommand_single_without_job {W} (env : Env W) (c : NodeId)
    (s s1 s2 : Store W) (view : TreeView) (pr : promise unit)
    (Hview : getTreeView env s = (s1, Returns view))
    (Hnone : filter_jobs s1 (selection view) = [])
    (Hdelete : provider_delete env c s1 = (s2, Returns pr))
    (Hnojob : job (nodes s2 c) = None) :
  deleteCommand env (Some c) s
  = (s2,
     [Ev GetTreeView Completed; Ev (Delete c) (dropped_status (Returns pr))],
     Throw TypeError).
Proof.
  expose. rewrite Hview. simpl. rewrite Hnone. simpl.
  rewrite Hdelete. destruct pr as [[]|?]; simpl; by rewrite Hnojob.
Qed.

Lemma deleteCommand_single_without_job_witness :
  deleteCommand Faulty.env (Some 10) all_well
  = (all_well,
     [Ev GetTreeView Completed; Ev (Delete 10) Completed],
     Throw TypeError).
Proof.
  apply (deleteCommand_single_without_job Faulty.env 10 all_well all_well all_well
           {| selection := [] |} (Resolved tt)); reflexivity.
Defined.

(** ** The time stamp of getSpoolContent *)

Section TimeStamp.

Context {W : Type} (env : Env W).

Lemma to_int_proper (z : Z) : Z.to_int z ≠ Decimal.Pos Decimal.Nil
                              /\ Z.to_int z ≠ Decimal.Neg Decimal.Nil.
Proof.
  destruct z as [|p|p]; simpl; split; try discriminate;
    intros [= Hnil]; by apply DecimalPos.Unsigned.to_uint_nonnil in Hnil.
Qed.

(** The decimal form determines the number. *)
Lemma number_toString_inj (a b : Z) : number_toString a = number_toString b -> a = b.
Proof.
  unfold number_toString. intros Heq.
  apply (f_equal NilZero.int_of_string) in Heq.
  destruct (to_int_proper a) as [Ha Ha'], (to_int_proper b) as [Hb Hb'].
  rewrite !NilZero.isi in Heq by done.
  injection Heq as Heq. apply (f_equal Z.of_int) in Heq.
  by rewrite !DecimalZ.of_to in Heq.
Qed.

Lemma getSpoolContent_uri_request session spool ts (s s1 s2 : Store W) p :
  loadNamedProfile env session s = (s1, Returns p) ->
  checkCurrentProfile env p s1 = (s2, Returns (Resolved tt)) ->
  validProfile s2 = VALID \/ validProfile s2 = UNVERIFIED ->
  uri_requests (trace (getSpoolContent env session spool ts s))
  = [(session, spool, number_toString ts)].
Proof.
  intros Hload Hcheck Hvalid. expose. rewrite Hload. simpl. rewrite Hcheck. simpl.
  assert (ValidProfileEnum_eqb (validProfile s2) VALID
          || ValidProfileEnum_eqb (validProfile s2) UNVERIFIED = true) as ->
    by (by destruct Hvalid as [-> | ->]).
  repeat branch.
Qed.

End TimeStamp.

(** [getSpoolContent] with a usable profile and a refresh time stamp that is
    a safe integer asks for exactly one URI, built from the session, the
    spool file and the decimal numeral of the time stamp; two refreshes of
    the same spool file with safe-integer time stamps ask for the same URI
    only if their time stamps are equal. *)
Theorem getSpoolContent_timestamp_distinguishes {W} (env : Env W)
    (session : string) (spool : IJobFile) (a b : Z)
    (s s1 s2 : Store W) (p : IProfileLoaded)
    (Hsafe_a : safe_integer a)
    (Hsafe_b : safe_integer b)
    (Hload : loadNamedProfile env session s = (s1, Returns p))
    (Hcheck : checkCurrentProfile env p s1 = (s2, Returns (Resolved tt)))
    (Hvalid : validProfile s2 = VALID \/ validProfile s2 = UNVERIFIED) :
  uri_requests (trace (getSpoolContent env session spool a s))
  = [(session, spool, number_toString a)]
  /\ (uri_requests (trace (getSpoolContent env session spool a s))
      = uri_requests (trace (getSpoolContent env session spool b s)) ->
      a = b).
Proof.
  split; [by eapply getSpoolContent_uri_request|].
  rewrite (getSpoolContent_uri_request env session spool a s s1 s2 p) by done.
  rewrite (getSpoolContent_uri_request env session spool b s s1 s2 p) by done.
  intros [= Heq]. by apply number_toString_inj.
Qed.

Lemma getSpoolContent_timestamp_distinguishes_witness :
  uri_requests (trace (getSpoolContent Faulty.env "zosmf" 5 1700000000000 all_well))
  = [("zosmf", 5, "1700000000000")].
Proof.
  refine (proj1 (getSpoolContent_timestamp_distinguishes Faulty.env "zosmf" 5
                   1700000000000 0 all_well all_well all_well 7 _ _ _ _ _)).
  - unfold safe_integer. lia.
  - unfold safe_integer. lia.
  - reflexivity.
  - reflexivity.
  - by left.
Defined.
